(** * SMAD sentiment-analysis API: a shallow embedding of [sentiment-api/main.py]

    The service wraps two HuggingFace pipelines behind three FastAPI
    endpoints.  The pipelines themselves, the wall clock, the logger and
    torch's device query are the environment; everything the file itself
    decides (label normalisation, request validation, batching, the shape
    of the responses and of the errors) is embedded below and verified. *)

From Stdlib Require Import ZArith NArith List Bool Lia Floats String Ascii.
Import ListNotations.

(** ** Python strings

    A [str] is a sequence of Unicode code points. *)

Definition str := list N.

(** A literal of the source, written as a Rocq string. *)
Definition lit (s : string) : str := map N_of_ascii (list_ascii_of_string s).
Arguments lit s : simpl never.

Fixpoint str_eqb (a b : str) : bool :=
  match a, b with
  | [], [] => true
  | x :: a', y :: b' => N.eqb x y && str_eqb a' b'
  | _, _ => false
  end.

(** [x in [a, b, ...]] on a list of strings. *)
Definition str_in (x : str) (l : list str) : bool := existsb (str_eqb x) l.
Arguments str_in x l : simpl never.

(** Truth value of a string: [bool(s)] is [len(s) != 0]. *)
Definition truthy (s : str) : bool :=
  match s with [] => false | _ :: _ => true end.

(** [str.isspace] on one code point, the table [str.strip()] consults
    (CPython's [_PyUnicode_IsWhitespace]). *)
Definition isspace (c : N) : bool :=
  (((0x09 <=? c) && (c <=? 0x0D)) || ((0x1C <=? c) && (c <=? 0x1F))
   || (c =? 0x20) || (c =? 0x85) || (c =? 0xA0) || (c =? 0x1680)
   || ((0x2000 <=? c) && (c <=? 0x200A))
   || (c =? 0x2028) || (c =? 0x2029) || (c =? 0x202F) || (c =? 0x205F)
   || (c =? 0x3000))%N.

Fixpoint lstrip (s : str) : str :=
  match s with
  | [] => []
  | c :: s' => if isspace c then lstrip s' else s
  end.

Definition rstrip (s : str) : str := rev (lstrip (rev s)).

(** [s.strip()]: leading and trailing whitespace removed. *)
Definition strip (s : str) : str := rstrip (lstrip s).

(** The texts the endpoints reject or skip: [not text.strip()]. *)
Definition blank (s : str) : bool := negb (truthy (strip s)).

Definition is_ascii (s : str) : bool := forallb (fun c => (c <? 128)%N) s.

Definition ascii_lower (c : N) : N :=
  (if (0x41 <=? c) && (c <=? 0x5A) then c + 32 else c)%N.

(** ** Floats, time

    A Python [float] is an IEEE 754 binary64, as Rocq's primitive floats.
    A [datetime] is a count of microseconds, a [timedelta] a difference of
    two. The float [total_seconds()] gives is that difference over 10^6,
    rounded to binary64: here the exact microsecond count is kept in its
    place. The rounding keeps the sign of a duration and the order of two
    durations, and those are all that is stated of a time below; it does
    not keep sums, and no sum of times is stated. *)

Definition datetime := Z.
Definition timedelta := Z.

Definition total_seconds (later earlier : datetime) : timedelta :=
  (later - earlier)%Z.

(** ** The environment: pipelines, exceptions, events *)

(** One entry of a pipeline's output: [{'label': ..., 'score': ...}]. *)
Record Prediction := mkPrediction { label : str; pred_score : float }.

(** [str(e)] of an [Exception] (an instance of the class or of a subclass)
    a pipeline, or the code around it, raises. *)
Definition exc := str.

(** A [BaseException] that is no [Exception] (KeyboardInterrupt, SystemExit,
    GeneratorExit), by its name: every handler of the file is an
    [except Exception] and lets it through. *)
Definition base_exc := str.

(** How a call ends: it returns, it raises an exception of the kind [E]
    the code at hand deals in (an [Exception] inside the try blocks, an
    [HTTPException] at the endpoints), or a [BaseException] outside
    [Exception] goes up through it uncaught. *)
Inductive result (E A : Type) : Type :=
| Return (a : A)
| Raise (e : E)
| Uncaught (b : base_exc).
Arguments Return {E A} a.
Arguments Raise {E A} e.
Arguments Uncaught {E A} b.

(** A loaded pipeline: called on a text, it returns its list of
    predictions, raises an [Exception], or raises a [BaseException] that
    is none. *)
Definition Pipeline := str -> result exc (list Prediction).

(** The module-level globals, and what torch reports. *)
Record Env := mkEnv {
  sentiment_pipeline : option Pipeline;
  emotion_pipeline : option Pipeline;
  cuda_is_available : bool;
  cuda_device_count : Z
}.

(** [x is not None], also the truth value of a pipeline object. *)
Definition is_not_None {A} (x : option A) : bool :=
  match x with Some _ => true | None => false end.

Inductive Event : Type :=
| SentimentCall (text : str)
| EmotionCall (text : str)
| LogInfo (msg : str)
| LogWarning (msg : str)
| LogError (msg : str).

(** The world outside the process: the readings [datetime.now()] will give,
    how many were taken, and what was done so far, oldest first. *)
Record World := mkWorld {
  clock : nat -> datetime;
  reads : nat;
  trace : list Event
}.

Record HTTPException := mkHTTPException { status_code : Z; detail : str }.

(** ** A state-and-exception monad over the world *)

Definition M (E A : Type) : Type := World -> result E A * World.

Definition ret {E A} (a : A) : M E A := fun w => (Return a, w).

Definition raise {E A} (e : E) : M E A := fun w => (Raise e, w).

Definition bind {E A B} (m : M E A) (k : A -> M E B) : M E B :=
  fun w =>
    match m w with
    | (Return a, w') => k a w'
    | (Raise e, w') => (Raise e, w')
    | (Uncaught b, w') => (Uncaught b, w')
    end.

(** [try: m  except Exception as e: h e]: the handler takes the
    [Exception]s of [m]; what is no [Exception] passes it by. *)
Definition try_except {E E' A} (m : M E A) (h : E -> M E' A) : M E' A :=
  fun w =>
    match m w with
    | (Return a, w') => (Return a, w')
    | (Raise e, w') => h e w'
    | (Uncaught b, w') => (Uncaught b, w')
    end.

Declare Scope py_scope.
Delimit Scope py_scope with py.
Notation "x <- m ;; k" := (bind m (fun x => k))
  (at level 61, m at next level, right associativity) : py_scope.
Notation "m ;;; k" := (bind m (fun _ => k))
  (at level 61, right associativity) : py_scope.
Local Open Scope py_scope.

(** [datetime.now()] *)
Definition now {E} : M E datetime :=
  fun w => (Return (clock w (reads w)),
            mkWorld (clock w) (S (reads w)) (trace w)).

Definition emit {E} (ev : Event) : M E unit :=
  fun w => (Return tt, mkWorld (clock w) (reads w) (trace w ++ [ev])).

(** Lifting a pure outcome. *)
Definition lift {E A} (r : result E A) : M E A := fun w => (r, w).

(** [p(text)] for a global [p] that may still be [None]. *)
Definition call (p : option Pipeline) (ev : str -> Event) (text : str)
  : M exc (list Prediction) :=
  match p with
  | None => raise (lit "'NoneType' object is not callable")
  | Some f => emit (ev text) ;;; lift (f text)
  end.

(** [l[0]] *)
Definition getitem0 {A} (l : list A) : M exc A :=
  match l with
  | [] => raise (lit "list index out of range")
  | x :: _ => ret x
  end.

(** ** Dictionaries

    A [dict] keeps its keys in insertion order; writing an existing key
    replaces the value and keeps the key where it was. *)

Definition pydict := list (str * float).

Fixpoint dict_setitem (d : pydict) (k : str) (v : float) : pydict :=
  match d with
  | [] => [(k, v)]
  | (k', v') :: d' =>
      if str_eqb k' k then (k', v) :: d' else (k', v') :: dict_setitem d' k v
  end.

Fixpoint dict_get (d : pydict) (k : str) : option float :=
  match d with
  | [] => None
  | (k', v) :: d' => if str_eqb k' k then Some v else dict_get d' k
  end.

Definition dict_keys (d : pydict) : list str := map fst d.

(** [{r['label']: r['score'] for r in rs}] *)
Definition dict_comprehension (rs : list Prediction) : pydict :=
  fold_left (fun d r => dict_setitem d (label r) (pred_score r)) rs [].

(** The labels of a ranking, each kept at its first place. *)
Fixpoint first_occurrences (l : list str) : list str :=
  match l with
  | [] => []
  | x :: l' => x :: filter (fun y => negb (str_eqb x y)) (first_occurrences l')
  end.

(** The score of the last prediction of [rs] that carries label [k]. *)
Fixpoint last_score (k : str) (rs : list Prediction) : option float :=
  match rs with
  | [] => None
  | r :: rs' =>
      match last_score k rs' with
      | Some v => Some v
      | None => if str_eqb (label r) k then Some (pred_score r) else None
      end
  end.

(** ** The pydantic models *)

Module TextInput.
Record t := make { text : str }.
End TextInput.

Module BatchTextInput.
Record t := make { texts : list str }.
End BatchTextInput.

Module SentimentResult.
Record t := make {
  text : str;
  sentiment : str;
  confidence : float;
  score : float;
  emotions : option pydict;
  processing_time : timedelta
}.
End SentimentResult.

Module BatchSentimentResult.
Record t := make {
  results : list SentimentResult.t;
  total_processing_time : timedelta
}.
End BatchSentimentResult.

(** The body of [GET /health]. *)
Module Health.
Record t := make {
  status : str;
  timestamp : datetime;
  sentiment_loaded : bool;
  emotion_loaded : bool;
  cuda_available : bool;
  device_count : Z
}.
End Health.

(** The body of [GET /]. *)
Module Root.
Record t := make {
  message : str;
  status : str;
  sentiment : bool;
  emotion : bool;
  device : str
}.
End Root.

(** ** Loading the models at startup

    What [pipeline(...)] gives for each of the two models. *)
Record Hub := mkHub {
  load_sentiment : result exc Pipeline;
  load_emotion : result exc Pipeline
}.

(** [load_models]: the globals after a successful start-up are returned;
    the only [Exception] that escapes is the primary model's, raised again
    by the outer handler. *)
Definition load_models (hub : Hub) (env : Env) : M exc Env :=
  try_except
    (emit (LogInfo (lit "Loading sentiment analysis models...")) ;;;
     sp <- lift (load_sentiment hub) ;;
     ep <- try_except
             (ep <- lift (load_emotion hub) ;;
              emit (LogInfo (lit "Emotion analysis model loaded successfully")) ;;;
              ret (Some ep))
             (fun e =>
                emit (LogWarning (lit "Could not load emotion model: " ++ e)) ;;;
                ret None) ;;
     emit (LogInfo (lit "Models loaded successfully")) ;;;
     ret (mkEnv (Some sp) ep (cuda_is_available env) (cuda_device_count env)))
    (fun e =>
       emit (LogError (lit "Error loading models: " ++ e)) ;;;
       raise e).

(** ** Concrete pipelines, globals and worlds for the runs below *)

Definition demo_sentiment : Pipeline := fun text =>
  if str_eqb text (lit "boom") then Raise (lit "CUDA out of memory")
  else if str_eqb text (lit "great news") then
    Return [mkPrediction (lit "POSITIVE") 0.75%float]
  else if str_eqb text (lit "bad day") then
    Return [mkPrediction (lit "Negative") 0.5%float]
  else Return [mkPrediction (lit "LABEL_1") 0.25%float].

Definition demo_emotion : Pipeline := fun text =>
  if str_eqb text (lit "bad day") then Raise (lit "tokenizer error")
  else Return [mkPrediction (lit "joy") 0.5%float;
               mkPrediction (lit "surprise") 0.25%float;
               mkPrediction (lit "neutral") 0.125%float;
               mkPrediction (lit "anger") 0.0625%float].

(** The same two models over a library that calls [sys.exit()] while the
    text ["stop"] is classified: a SystemExit, which is a [BaseException]
    and no [Exception]. *)
Definition exiting_sentiment : Pipeline := fun text =>
  if str_eqb text (lit "stop") then Uncaught (lit "SystemExit")
  else demo_sentiment text.

Definition exiting_emotion : Pipeline := fun text =>
  if str_eqb text (lit "stop") then Uncaught (lit "SystemExit")
  else demo_emotion text.

Definition env_full : Env := mkEnv (Some demo_sentiment) (Some demo_emotion) false 0.
Definition env_no_emotion : Env := mkEnv (Some demo_sentiment) None false 0.
Definition env_unloaded : Env := mkEnv None None false 0.

(** A clock that advances one millisecond per reading. *)
Definition w0 : World := mkWorld (fun n => 1000 * Z.of_nat n)%Z 0 [].

(** A wall clock set back between its first and its second reading. *)
Definition w_set_back : World :=
  mkWorld (fun n => match n with O => 5000 | _ => 3000 end)%Z 0 [].

Section Service.

(** [str.lower()] on a string with a character outside ASCII follows the
    Unicode case tables; they are a parameter. On an ASCII string it maps
    A-Z to a-z and nothing else. *)
Variable unicode_lower : str -> str.

Definition lower (s : str) : str :=
  if is_ascii s then map ascii_lower s else unicode_lower s.

(** ** [analyze_single_text] *)

Definition analyze_single_text (env : Env) (text : str)
  : M HTTPException SentimentResult.t :=
  start_time <- now ;;
  try_except
    (out <- call (sentiment_pipeline env) SentimentCall text ;;
     sentiment_result <- getitem0 out ;;
     let label := lower (label sentiment_result) in
     let confidence := pred_score sentiment_result in
     let '(sentiment, score) :=
       if str_in label [lit "positive"; lit "pos"] then
         (lit "positive", confidence)
       else if str_in label [lit "negative"; lit "neg"] then
         (lit "negative", PrimFloat.opp confidence)
       else
         (lit "neutral", 0%float) in
     emotions <-
       (if is_not_None (emotion_pipeline env) then
          try_except
            (emotion_results <- call (emotion_pipeline env) EmotionCall text ;;
             ret (Some (dict_comprehension (firstn 3 emotion_results))))
            (fun e =>
               emit (LogWarning (lit "Error in emotion analysis: " ++ e)) ;;;
               ret None)
        else ret None) ;;
     end_time <- now ;;
     ret (SentimentResult.make text sentiment confidence score emotions
            (total_seconds end_time start_time)))
    (fun e =>
       emit (LogError (lit "Error analyzing text: " ++ e)) ;;;
       raise (mkHTTPException 500 (lit "Analysis failed: " ++ e))).

(** ** The endpoints *)

Definition root (env : Env) : Root.t :=
  Root.make (lit "SMAD Sentiment Analysis API") (lit "healthy")
    (is_not_None (sentiment_pipeline env))
    (is_not_None (emotion_pipeline env))
    (if cuda_is_available env then lit "cuda" else lit "cpu").

Definition analyze_sentiment (env : Env) (input_data : TextInput.t)
  : M HTTPException SentimentResult.t :=
  if negb (is_not_None (sentiment_pipeline env)) then
    raise (mkHTTPException 503 (lit "Sentiment model not loaded"))
  else if negb (truthy (strip (TextInput.text input_data))) then
    raise (mkHTTPException 400 (lit "Text cannot be empty"))
  else
    analyze_single_text env (TextInput.text input_data).

(** The [for text in input_data.texts] loop, [results] being the list
    built so far. *)
Fixpoint for_text_in (env : Env) (texts : list str)
    (results : list SentimentResult.t)
  : M HTTPException (list SentimentResult.t) :=
  match texts with
  | [] => ret results
  | text :: rest =>
      if truthy (strip text) then
        result <- analyze_single_text env text ;;
        for_text_in env rest (results ++ [result])
      else
        for_text_in env rest results
  end.

Definition analyze_batch_sentiment (env : Env) (input_data : BatchTextInput.t)
  : M HTTPException BatchSentimentResult.t :=
  if negb (is_not_None (sentiment_pipeline env)) then
    raise (mkHTTPException 503 (lit "Sentiment model not loaded"))
  else if match BatchTextInput.texts input_data with [] => true | _ => false end then
    raise (mkHTTPException 400 (lit "Texts list cannot be empty"))
  else if (100 <? Z.of_nat (List.length (BatchTextInput.texts input_data)))%Z then
    raise (mkHTTPException 400 (lit "Maximum 100 texts per batch"))
  else
    start_time <- now ;;
    results <- for_text_in env (BatchTextInput.texts input_data) [] ;;
    end_time <- now ;;
    ret (BatchSentimentResult.make results (total_seconds end_time start_time)).

Definition health_check (env : Env) : M HTTPException Health.t :=
  timestamp <- now ;;
  ret (Health.make (lit "healthy") timestamp
         (is_not_None (sentiment_pipeline env))
         (is_not_None (emotion_pipeline env))
         (cuda_is_available env)
         (if cuda_is_available env then cuda_device_count env else 0%Z)).

(** ** Definitions the properties are stated with *)

(** Case-insensitive membership: some name of the list has the same
    lower-case form as [l]. *)
Definition ci_member (l : str) (names : list str) : Prop :=
  exists n, In n names /\ lower l = lower n.

(** What [sentiment_pipeline(text)[0]] evaluates to. *)
Definition first_prediction (env : Env) (text : str) : result exc Prediction :=
  match sentiment_pipeline env with
  | None => Raise (lit "'NoneType' object is not callable")
  | Some p =>
      match p text with
      | Raise e => Raise e
      | Uncaught b => Uncaught b
      | Return [] => Raise (lit "list index out of range")
      | Return (r :: _) => Return r
      end
  end.

(** The pair (sentiment, score) the if/elif/else of lines 90-98 leaves. *)
Definition normalized (r : Prediction) : str * float :=
  if str_in (lower (label r)) [lit "positive"; lit "pos"] then
    (lit "positive", pred_score r)
  else if str_in (lower (label r)) [lit "negative"; lit "neg"] then
    (lit "negative", PrimFloat.opp (pred_score r))
  else (lit "neutral", 0%float).

(** The value of [emotions] after lines 101-110. *)
Definition emotions_of (env : Env) (text : str) : option pydict :=
  match emotion_pipeline env with
  | None => None
  | Some q =>
      match q text with
      | Return rs => Some (dict_comprehension (firstn 3 rs))
      | Raise _ | Uncaught _ => None
      end
  end.

(** What lines 101-110 do to the world. *)
Definition emotion_events (env : Env) (text : str) : list Event :=
  match emotion_pipeline env with
  | None => []
  | Some q =>
      EmotionCall text ::
      match q text with
      | Return _ | Uncaught _ => []
      | Raise e => [LogWarning (lit "Error in emotion analysis: " ++ e)]
      end
  end.

(** What one run of [analyze_single_text] does to the world. *)
Definition single_events (env : Env) (text : str) : list Event :=
  (if is_not_None (sentiment_pipeline env) then [SentimentCall text] else [])
  ++ match first_prediction env text with
     | Return _ => emotion_events env text
     | Raise e => [LogError (lit "Error analyzing text: " ++ e)]
     | Uncaught _ => []
     end.

(** How the calls of one run of [analyze_single_text] end, taken together:
    with the first prediction, when both models let the run go on; with the
    [Exception] that makes the primary classification fail; or with the
    [BaseException] one of the two models lets out. *)
Definition single_outcome (env : Env) (text : str) : result exc Prediction :=
  match first_prediction env text with
  | Return r =>
      match emotion_pipeline env with
      | None => Return r
      | Some q =>
          match q text with
          | Uncaught b => Uncaught b
          | Return _ | Raise _ => Return r
          end
      end
  | Raise e => Raise e
  | Uncaught b => Uncaught b
  end.

(** What stops a batch: a failed classification, with its cause, or a
    [BaseException] let out by a model. *)
Inductive failure : Type :=
| Failed (cause : exc)
| Escaped (b : base_exc).

(** The first text of a batch, skipped texts left out, on which the run
    stops, and what stops it. *)
Fixpoint first_failure (env : Env) (texts : list str)
  : option (str * failure) :=
  match texts with
  | [] => None
  | text :: rest =>
      if blank text then first_failure env rest
      else match single_outcome env text with
           | Raise e => Some (text, Failed e)
           | Uncaught b => Some (text, Escaped b)
           | Return _ => first_failure env rest
           end
  end.

(** The texts a batch run hands to [analyze_single_text], in order: the
    non-blank ones up to and including the first the run stops on. *)
Fixpoint processed (env : Env) (texts : list str) : list str :=
  match texts with
  | [] => []
  | text :: rest =>
      if blank text then processed env rest
      else match single_outcome env text with
           | Raise _ | Uncaught _ => [text]
           | Return _ => text :: processed env rest
           end
  end.

Definition non_blank (texts : list str) : list str :=
  filter (fun t => negb (blank t)) texts.

(** The texts the primary and the secondary model were called on, in
    the order of the calls. *)
Definition sentiment_args (evs : list Event) : list str :=
  flat_map (fun ev => match ev with SentimentCall x => [x] | _ => [] end) evs.

Definition emotion_args (evs : list Event) : list str :=
  flat_map (fun ev => match ev with EmotionCall x => [x] | _ => [] end) evs.

(** What a result says of its text, the time it took left out. *)
Definition content (sr : SentimentResult.t)
  : str * str * float * float * option pydict :=
  (SentimentResult.text sr, SentimentResult.sentiment sr,
   SentimentResult.confidence sr, SentimentResult.score sr,
   SentimentResult.emotions sr).

(** A clock that is never set back. *)
Definition monotone (c : nat -> datetime) : Prop :=
  forall n, (c n <= c (S n))%Z.

(** ** Strings *)

Lemma str_eqb_eq (a b : str) : str_eqb a b = true <-> a = b.
Proof.
  revert b; induction a as [|x a IH]; intros [|y b]; simpl;
    try (split; [discriminate | discriminate]); try tauto.
  rewrite andb_true_iff, N.eqb_eq, IH.
  split; [intros [-> ->]; reflexivity | intros H; inversion H; auto].
Qed.

Lemma str_eqb_refl (a : str) : str_eqb a a = true.
Proof. apply str_eqb_eq; reflexivity. Qed.

Lemma str_eqb_neq (a b : str) : str_eqb a b = false <-> a <> b.
Proof.
  rewrite <- str_eqb_eq. destruct (str_eqb a b); split; congruence.
Qed.

Lemma str_in_In (x : str) (l : list str) : str_in x l = true <-> In x l.
Proof.
  unfold str_in. rewrite existsb_exists. split.
  - intros [y [Hy Heq]]. apply str_eqb_eq in Heq. subst; assumption.
  - intros H. exists x. split; [assumption | apply str_eqb_refl].
Qed.

Lemma str_in_not_In (x : str) (l : list str) : str_in x l = false <-> ~ In x l.
Proof.
  rewrite <- str_in_In. destruct (str_in x l); split; congruence.
Qed.

Lemma lstrip_nil (s : str) : lstrip s = [] <-> forallb isspace s = true.
Proof.
  induction s as [|c s IH]; simpl; [tauto|].
  destruct (isspace c); simpl; [exact IH | split; discriminate].
Qed.

Lemma lstrip_all_space (s : str) :
  forallb isspace (lstrip s) = true -> forallb isspace s = true.
Proof.
  induction s as [|c s IH]; simpl; [tauto|].
  destruct (isspace c) eqn:E; simpl; [exact IH|].
  rewrite E. discriminate.
Qed.

Lemma forallb_rev {A} (f : A -> bool) (l : list A) :
  forallb f (rev l) = forallb f l.
Proof.
  induction l as [|x l IH]; simpl; [reflexivity|].
  rewrite forallb_app, IH. simpl. rewrite andb_true_r. apply andb_comm.
Qed.

Lemma rstrip_nil (s : str) : rstrip s = [] <-> forallb isspace s = true.
Proof.
  unfold rstrip. rewrite <- (forallb_rev isspace s), <- lstrip_nil.
  split; intros H.
  - apply (f_equal (@rev N)) in H. rewrite rev_involutive in H. exact H.
  - rewrite H. reflexivity.
Qed.

(** [text.strip()] is empty exactly for the texts made of whitespace only,
    the empty one among them. *)
Lemma strip_nil (s : str) : strip s = [] <-> forallb isspace s = true.
Proof.
  unfold strip. rewrite rstrip_nil. split.
  - apply lstrip_all_space.
  - intros H. apply lstrip_nil in H. rewrite H. reflexivity.
Qed.

Lemma blank_true (s : str) : blank s = true <-> forallb isspace s = true.
Proof.
  rewrite <- strip_nil. unfold blank. destruct (strip s); simpl; split;
    congruence.
Qed.

Lemma truthy_strip (s : str) : truthy (strip s) = negb (blank s).
Proof. unfold blank. rewrite negb_involutive. reflexivity. Qed.

(** ** One run of [analyze_single_text] *)

Ltac run_single :=
  unfold analyze_single_text, single_events, single_outcome, first_prediction,
    emotions_of, emotion_events, normalized, call, getitem0, try_except, bind,
    now, emit, lift, ret, raise, total_seconds in *; cbn in *.

Lemma single_outcome_returns env text r :
  single_outcome env text = Return r -> first_prediction env text = Return r.
Proof.
  unfold single_outcome.
  destruct (first_prediction env text) as [r'|e|b]; try discriminate.
  destruct (emotion_pipeline env) as [q|]; [destruct (q text)|];
    congruence.
Qed.

Lemma single_outcome_raises env text e :
  single_outcome env text = Raise e <-> first_prediction env text = Raise e.
Proof.
  unfold single_outcome.
  destruct (first_prediction env text) as [r'|e'|b];
    [|tauto | split; discriminate].
  destruct (emotion_pipeline env) as [q|]; [destruct (q text)|];
    split; discriminate.
Qed.

(** When [sentiment_pipeline(text)[0]] raises an [Exception], the function
    raises a 500 carrying the cause, after one clock reading and a logged
    error. *)
Lemma analyze_single_text_raises env text w e :
  single_outcome env text = Raise e ->
  analyze_single_text env text w =
    (Raise (mkHTTPException 500 (lit "Analysis failed: " ++ e)),
     mkWorld (clock w) (S (reads w)) (trace w ++ single_events env text)).
Proof.
  intros H. apply single_outcome_raises in H. run_single.
  destruct (sentiment_pipeline env) as [p|]; simpl in *.
  - destruct (p text) as [[|r rest]|e'|b]; simpl in *; inversion H; subst;
      rewrite <- app_assoc; reflexivity.
  - inversion H; subst. reflexivity.
Qed.

(** When it gives a prediction and the secondary model lets no
    [BaseException] out, the function returns, after two clock readings,
    the result built from that prediction. *)
Lemma analyze_single_text_returns env text w r :
  single_outcome env text = Return r ->
  analyze_single_text env text w =
    (Return (SentimentResult.make text (fst (normalized r)) (pred_score r)
               (snd (normalized r)) (emotions_of env text)
               (clock w (S (reads w)) - clock w (reads w))%Z),
     mkWorld (clock w) (S (S (reads w))) (trace w ++ single_events env text)).
Proof.
  intros H. run_single.
  destruct (sentiment_pipeline env) as [p|]; simpl in *; [|discriminate].
  destruct (p text) as [[|r' rest]|e'|b]; simpl in *; try discriminate.
  destruct (emotion_pipeline env) as [q|]; simpl in *;
    [destruct (q text) as [rs|e''|b]; simpl in *|];
    try discriminate; inversion H; subst;
    (destruct (str_in (lower (label r)) [lit "positive"; lit "pos"]);
     [|destruct (str_in (lower (label r)) [lit "negative"; lit "neg"])];
     cbn; rewrite <- ?app_assoc; reflexivity).
Qed.

(** When one of the two models lets a [BaseException] out, it goes up
    through the function: the clock was read once, nothing is logged, and
    there is neither a result nor a 500. *)
Lemma analyze_single_text_uncaught env text w b :
  single_outcome env text = Uncaught b ->
  analyze_single_text env text w =
    (Uncaught b,
     mkWorld (clock w) (S (reads w)) (trace w ++ single_events env text)).
Proof.
  intros H. run_single.
  destruct (sentiment_pipeline env) as [p|]; simpl in *; [|discriminate].
  destruct (p text) as [[|r' rest]|e'|b']; simpl in *; try discriminate.
  - destruct (emotion_pipeline env) as [q|]; simpl in *;
      [destruct (q text) as [rs|e''|b'']; simpl in *|];
      try discriminate; inversion H; subst;
      (destruct (str_in (lower (label r')) [lit "positive"; lit "pos"]);
       [|destruct (str_in (lower (label r')) [lit "negative"; lit "neg"])];
       cbn; rewrite <- ?app_assoc; reflexivity).
  - inversion H; subst. reflexivity.
Qed.

(** Every run takes one of the three courses. *)
Lemma analyze_single_text_trace env text w :
  trace (snd (analyze_single_text env text w)) =
  trace w ++ single_events env text.
Proof.
  destruct (single_outcome env text) as [r|e|b] eqn:E.
  - rewrite (analyze_single_text_returns _ _ w _ E). reflexivity.
  - rewrite (analyze_single_text_raises _ _ w _ E). reflexivity.
  - rewrite (analyze_single_text_uncaught _ _ w _ E). reflexivity.
Qed.

(** ** The batch loop *)

(** A batch made of blank texts only leaves the results and the world as
    they were. *)
Lemma for_text_in_all_blank env texts acc w :
  Forall (fun t => blank t = true) texts ->
  for_text_in env texts acc w = (Return acc, w).
Proof.
  intros H; induction H as [|t texts Ht _ IH]; simpl; [reflexivity|].
  rewrite truthy_strip, Ht. exact IH.
Qed.

(** The loop either runs to its end, with one result per non-blank text
    in the order of the texts, or stops at the first text on which the
    primary classification fails, with that failure's 500, or on which a
    model lets a [BaseException] out, which then goes up. *)
Lemma for_text_in_run env texts : forall acc w,
  match first_failure env texts with
  | Some (t, Failed e) =>
      exists w',
        for_text_in env texts acc w =
          (Raise (mkHTTPException 500 (lit "Analysis failed: " ++ e)), w')
  | Some (t, Escaped b) =>
      exists w', for_text_in env texts acc w = (Uncaught b, w')
  | None =>
      exists new w',
        for_text_in env texts acc w = (Return (acc ++ new), w') /\
        Forall2 (fun t sr =>
                   SentimentResult.text sr = t /\
                   exists w1 w2,
                     analyze_single_text env t w1 = (Return sr, w2))
                (non_blank texts) new
  end.
Proof.
  induction texts as [|t texts IH]; intros acc w; simpl.
  - exists [], w. rewrite app_nil_r. split; [reflexivity | constructor].
  - rewrite truthy_strip. unfold non_blank in *. simpl.
    destruct (blank t) eqn:Eb; simpl; [apply IH|].
    destruct (single_outcome env t) as [r|e|b] eqn:Ep.
    + unfold bind. rewrite (analyze_single_text_returns _ _ w _ Ep).
      cbn beta iota.
      match goal with |- context [for_text_in env texts ?a ?v] =>
        specialize (IH a v) end.
      destruct (first_failure env texts) as [[t' [e'|b']]|].
      * exact IH.
      * exact IH.
      * destruct IH as (new & w' & Hrun & Hall).
        rewrite Hrun, <- app_assoc.
        eexists (_ :: new), w'.
        split; [reflexivity|]. constructor; [|exact Hall].
        split; [reflexivity|].
        exists w. eexists. apply (analyze_single_text_returns _ _ w _ Ep).
    + unfold bind. rewrite (analyze_single_text_raises _ _ w _ Ep).
      eexists. reflexivity.
    + unfold bind. rewrite (analyze_single_text_uncaught _ _ w _ Ep).
      eexists. reflexivity.
Qed.

(** What the loop does to the world: [analyze_single_text] on each of the
    processed texts, in order, and nothing else. *)
Lemma for_text_in_trace env texts : forall acc w,
  trace (snd (for_text_in env texts acc w)) =
  trace w ++ flat_map (single_events env) (processed env texts).
Proof.
  induction texts as [|t texts IH]; intros acc w; simpl.
  - rewrite app_nil_r. reflexivity.
  - rewrite truthy_strip.
    destruct (blank t) eqn:Eb; simpl; [apply IH|].
    destruct (single_outcome env t) as [r|e|b] eqn:Ep; unfold bind at 1.
    + rewrite (analyze_single_text_returns _ _ w _ Ep). cbn. rewrite IH. cbn.
      rewrite <- app_assoc. reflexivity.
    + rewrite (analyze_single_text_raises _ _ w _ Ep). cbn.
      rewrite app_nil_r. reflexivity.
    + rewrite (analyze_single_text_uncaught _ _ w _ Ep). cbn.
      rewrite app_nil_r. reflexivity.
Qed.

Lemma processed_no_failure env texts :
  first_failure env texts = None -> processed env texts = non_blank texts.
Proof.
  unfold non_blank. induction texts as [|t texts IH]; simpl; [reflexivity|].
  destruct (blank t); simpl; [exact IH|].
  destruct (single_outcome env t); try discriminate.
  intros H. rewrite (IH H). reflexivity.
Qed.

Lemma processed_incl env texts t :
  In t (processed env texts) -> In t texts /\ blank t = false.
Proof.
  induction texts as [|x texts IH]; simpl; [tauto|].
  destruct (blank x) eqn:Eb.
  - intros H. destruct (IH H). auto.
  - destruct (single_outcome env x); simpl; intros [->|H]; auto;
      try contradiction. destruct (IH H). auto.
Qed.

Lemma first_failure_some env texts t f :
  first_failure env texts = Some (t, f) ->
  In t texts /\ blank t = false /\
  single_outcome env t =
    match f with Failed e => Raise e | Escaped b => Uncaught b end.
Proof.
  induction texts as [|x texts IH]; simpl; [discriminate|].
  destruct (blank x) eqn:Eb.
  - intros H. destruct (IH H) as (? & ? & ?). auto.
  - destruct (single_outcome env x) as [r|e'|b'] eqn:Ep.
    + intros H. destruct (IH H) as (? & ? & ?). auto.
    + intros H. inversion H; subst. auto.
    + intros H. inversion H; subst. auto.
Qed.

Lemma first_failure_none env texts :
  first_failure env texts = None <->
  (forall t, In t texts -> blank t = false ->
             exists r, single_outcome env t = Return r).
Proof.
  induction texts as [|x texts IH]; simpl.
  - split; [intros _ t [] | reflexivity].
  - destruct (blank x) eqn:Eb.
    + rewrite IH. split; intros H t.
      * intros [->|Hin] Hb; [congruence | auto].
      * intros Hin Hb. apply H; auto.
    + destruct (single_outcome env x) as [r|e|b] eqn:Ep.
      * rewrite IH. split; intros H t.
        -- intros [->|Hin] Hb; [eauto | auto].
        -- intros Hin Hb. apply H; auto.
      * split; [discriminate|]. intros H.
        destruct (H x (or_introl eq_refl) Eb) as [r Hr]. congruence.
      * split; [discriminate|]. intros H.
        destruct (H x (or_introl eq_refl) Eb) as [r Hr]. congruence.
Qed.

(** ** The endpoints, past their guards *)

Lemma analyze_sentiment_unloaded env i w :
  sentiment_pipeline env = None ->
  analyze_sentiment env i w =
    (Raise (mkHTTPException 503 (lit "Sentiment model not loaded")), w).
Proof. intros H. unfold analyze_sentiment. rewrite H. reflexivity. Qed.

Lemma analyze_batch_unloaded env b w :
  sentiment_pipeline env = None ->
  analyze_batch_sentiment env b w =
    (Raise (mkHTTPException 503 (lit "Sentiment model not loaded")), w).
Proof. intros H. unfold analyze_batch_sentiment. rewrite H. reflexivity. Qed.

Lemma analyze_sentiment_loaded env i w :
  sentiment_pipeline env <> None ->
  analyze_sentiment env i w =
    if blank (TextInput.text i) then
      (Raise (mkHTTPException 400 (lit "Text cannot be empty")), w)
    else analyze_single_text env (TextInput.text i) w.
Proof.
  intros H. unfold analyze_sentiment, blank.
  destruct (sentiment_pipeline env); [|congruence]. simpl.
  destruct (truthy (strip (TextInput.text i))); reflexivity.
Qed.

Lemma analyze_batch_accepted env b w :
  sentiment_pipeline env <> None ->
  (0 < List.length (BatchTextInput.texts b) <= 100)%nat ->
  analyze_batch_sentiment env b w =
    match for_text_in env (BatchTextInput.texts b) []
            (mkWorld (clock w) (S (reads w)) (trace w)) with
    | (Return results, w') =>
        (Return (BatchSentimentResult.make results
                   (clock w' (reads w') - clock w (reads w))%Z),
         mkWorld (clock w') (S (reads w')) (trace w'))
    | (Raise e, w') => (Raise e, w')
    | (Uncaught b0, w') => (Uncaught b0, w')
    end.
Proof.
  intros H Hlen. unfold analyze_batch_sentiment.
  destruct (sentiment_pipeline env); [|congruence]. simpl.
  destruct (BatchTextInput.texts b) as [|t texts] eqn:Et;
    [simpl in Hlen; lia|].
  destruct (100 <? Z.of_nat (List.length (t :: texts)))%Z eqn:El;
    [apply Z.ltb_lt in El; lia|].
  unfold bind, now, ret, total_seconds. cbn beta iota.
  match goal with |- context [for_text_in env ?l ?a ?v] =>
    destruct (for_text_in env l a v) as [[results|e|b0] w'] end;
    reflexivity.
Qed.

(** ** Label normalisation *)

Lemma lower_ascii (s : str) : is_ascii s = true -> lower s = map ascii_lower s.
Proof. intros H. unfold lower. rewrite H. reflexivity. Qed.

Lemma ci_member_positive (l : str) :
  ci_member l [lit "positive"; lit "pos"] <->
  str_in (lower l) [lit "positive"; lit "pos"] = true.
Proof.
  rewrite str_in_In. unfold ci_member. split.
  - intros (n & Hn & Hl). rewrite Hl.
    destruct Hn as [<-|[<-|[]]]; [left | right; left]; reflexivity.
  - intros H. destruct H as [H|[H|[]]].
    + exists (lit "positive"). split; [left; reflexivity|].
      rewrite <- H. reflexivity.
    + exists (lit "pos"). split; [right; left; reflexivity|].
      rewrite <- H. reflexivity.
Qed.

Lemma ci_member_negative (l : str) :
  ci_member l [lit "negative"; lit "neg"] <->
  str_in (lower l) [lit "negative"; lit "neg"] = true.
Proof.
  rewrite str_in_In. unfold ci_member. split.
  - intros (n & Hn & Hl). rewrite Hl.
    destruct Hn as [<-|[<-|[]]]; [left | right; left]; reflexivity.
  - intros H. destruct H as [H|[H|[]]].
    + exists (lit "negative"). split; [left; reflexivity|].
      rewrite <- H. reflexivity.
    + exists (lit "neg"). split; [right; left; reflexivity|].
      rewrite <- H. reflexivity.
Qed.

(** No label is on both lists. *)
Lemma positive_not_negative (x : str) :
  str_in x [lit "negative"; lit "neg"] = true ->
  str_in x [lit "positive"; lit "pos"] = false.
Proof.
  rewrite str_in_In, str_in_not_In.
  intros [<-|[<-|[]]] [H|[H|[]]]; discriminate H.
Qed.

(** Past a first prediction, the run goes on unless the secondary model
    lets a [BaseException] out. *)
Lemma single_outcome_of_prediction env text r :
  first_prediction env text = Return r ->
  single_outcome env text = Return r \/
  (exists q b, emotion_pipeline env = Some q /\ q text = Uncaught b /\
               single_outcome env text = Uncaught b).
Proof.
  intros H. unfold single_outcome. rewrite H.
  destruct (emotion_pipeline env) as [q|]; [|left; reflexivity].
  destruct (q text) as [rs|e|b] eqn:Eq; [left; reflexivity.. |].
  right. exists q, b. auto.
Qed.

(** C1. Whatever the text, the label the primary classifier returns is
    normalised without regard to case: a label that is "positive" or "pos"
    gives sentiment "positive" and score = +confidence; one that is
    "negative" or "neg" gives "negative" and score = -confidence; any other
    label gives "neutral" and score = 0.0, whatever the confidence. The
    result is returned, but for a [BaseException] outside [Exception] that
    the secondary model lets out, which goes up uncaught. *)
Theorem C1_label_normalization env text w p r rest :
  sentiment_pipeline env = Some p ->
  p text = Return (r :: rest) ->
  (exists sr w',
     analyze_single_text env text w = (Return sr, w') /\
     SentimentResult.confidence sr = pred_score r /\
     (ci_member (label r) [lit "positive"; lit "pos"] ->
        SentimentResult.sentiment sr = lit "positive" /\
        SentimentResult.score sr = pred_score r) /\
     (ci_member (label r) [lit "negative"; lit "neg"] ->
        SentimentResult.sentiment sr = lit "negative" /\
        SentimentResult.score sr = PrimFloat.opp (pred_score r)) /\
     (~ ci_member (label r) [lit "positive"; lit "pos"] ->
      ~ ci_member (label r) [lit "negative"; lit "neg"] ->
        SentimentResult.sentiment sr = lit "neutral" /\
        SentimentResult.score sr = 0%float)) \/
  (exists q b w',
     emotion_pipeline env = Some q /\ q text = Uncaught b /\
     analyze_single_text env text w = (Uncaught b, w')).
Proof.
  intros Hp Hr.
  assert (Hfp : first_prediction env text = Return r)
    by (unfold first_prediction; rewrite Hp, Hr; reflexivity).
  destruct (single_outcome_of_prediction env text r Hfp)
    as [Hso|(q & b & Hq & Hb & Hso)];
    [left | right; exists q, b; eexists; split; [exact Hq|];
            split; [exact Hb|];
            apply (analyze_single_text_uncaught _ _ w _ Hso)].
  eexists; eexists. split; [apply (analyze_single_text_returns _ _ w _ Hso)|].
  cbn [SentimentResult.confidence SentimentResult.sentiment
       SentimentResult.score].
  rewrite ci_member_positive, ci_member_negative. unfold normalized.
  split; [reflexivity|].
  destruct (str_in (lower (label r)) [lit "positive"; lit "pos"]) eqn:Epos.
  - split; [intros _; split; reflexivity|]. split.
    + intros Hneg. apply positive_not_negative in Hneg. congruence.
    + intros Hn. congruence.
  - split; [discriminate|].
    destruct (str_in (lower (label r)) [lit "negative"; lit "neg"]) eqn:Eneg.
    + split; [intros _; split; reflexivity|]. intros _ Hn. congruence.
    + split; [discriminate|]. intros _ _. split; reflexivity.
Qed.

(** ** Errors of the endpoints *)

Lemma for_text_in_raises env texts acc w e w' :
  for_text_in env texts acc w = (Raise e, w') ->
  exists t cause,
    first_failure env texts = Some (t, Failed cause) /\
    e = mkHTTPException 500 (lit "Analysis failed: " ++ cause).
Proof.
  intros H. pose proof (for_text_in_run env texts acc w) as R.
  destruct (first_failure env texts) as [[t [cause|b]]|].
  - destruct R as (w1 & R). rewrite R in H. inversion H. eauto.
  - destruct R as (w1 & R). rewrite R in H. discriminate.
  - destruct R as (new & w1 & R & _). rewrite R in H. discriminate.
Qed.

Lemma for_text_in_uncaught env texts acc w b w' :
  for_text_in env texts acc w = (Uncaught b, w') ->
  exists t, first_failure env texts = Some (t, Escaped b).
Proof.
  intros H. pose proof (for_text_in_run env texts acc w) as R.
  destruct (first_failure env texts) as [[t [cause|b']]|].
  - destruct R as (w1 & R). rewrite R in H. discriminate.
  - destruct R as (w1 & R). rewrite R in H. inversion H. eauto.
  - destruct R as (new & w1 & R & _). rewrite R in H. discriminate.
Qed.

Lemma analyze_single_text_status env text w e w' :
  analyze_single_text env text w = (Raise e, w') -> status_code e = 500%Z.
Proof.
  destruct (single_outcome env text) as [r|c|b] eqn:E.
  - rewrite (analyze_single_text_returns _ _ w _ E). discriminate.
  - rewrite (analyze_single_text_raises _ _ w _ E). intros H; inversion H.
    reflexivity.
  - rewrite (analyze_single_text_uncaught _ _ w _ E). discriminate.
Qed.

Lemma analyze_batch_accepted_status env b w e w' :
  sentiment_pipeline env <> None ->
  (0 < List.length (BatchTextInput.texts b) <= 100)%nat ->
  analyze_batch_sentiment env b w = (Raise e, w') -> status_code e = 500%Z.
Proof.
  intros Hl Hn. rewrite (analyze_batch_accepted _ _ w Hl Hn).
  match goal with |- context [for_text_in env ?l ?a ?v] =>
    destruct (for_text_in env l a v) as [[results|e1|b1] w1] eqn:R end;
    [discriminate| |discriminate].
  intros H; inversion H; subst.
  apply for_text_in_raises in R. destruct R as (t & cause & _ & ->).
  reflexivity.
Qed.

Lemma analyze_batch_empty env b w :
  sentiment_pipeline env <> None ->
  BatchTextInput.texts b = [] ->
  analyze_batch_sentiment env b w =
    (Raise (mkHTTPException 400 (lit "Texts list cannot be empty")), w).
Proof.
  intros Hl Hb. unfold analyze_batch_sentiment.
  destruct (sentiment_pipeline env); [|congruence]. rewrite Hb. reflexivity.
Qed.

Lemma analyze_batch_too_long env b w :
  sentiment_pipeline env <> None ->
  (100 < List.length (BatchTextInput.texts b))%nat ->
  analyze_batch_sentiment env b w =
    (Raise (mkHTTPException 400 (lit "Maximum 100 texts per batch")), w).
Proof.
  intros Hl Hb. unfold analyze_batch_sentiment.
  destruct (sentiment_pipeline env); [|congruence].
  destruct (BatchTextInput.texts b) as [|t texts]; [simpl in Hb; lia|].
  cbn [negb is_not_None].
  destruct (100 <? Z.of_nat (List.length (t :: texts)))%Z eqn:El;
    [reflexivity | apply Z.ltb_ge in El; lia].
Qed.

(** C7. POST /analyze and POST /analyze/batch both fail with a 503 whenever
    the primary sentiment model is not loaded, and serve requests only when
    it is: a request that is answered found the model loaded, and with the
    model loaded no request fails with a 503. *)
Theorem C7_model_unavailable_503 env w :
  (sentiment_pipeline env = None ->
     (forall i, analyze_sentiment env i w =
        (Raise (mkHTTPException 503 (lit "Sentiment model not loaded")), w)) /\
     (forall b, analyze_batch_sentiment env b w =
        (Raise (mkHTTPException 503 (lit "Sentiment model not loaded")), w))) /\
  ((forall i r w', analyze_sentiment env i w = (Return r, w') ->
      sentiment_pipeline env <> None) /\
   (forall b r w', analyze_batch_sentiment env b w = (Return r, w') ->
      sentiment_pipeline env <> None)) /\
  (sentiment_pipeline env <> None ->
     (forall i e w', analyze_sentiment env i w = (Raise e, w') ->
        status_code e <> 503%Z) /\
     (forall b e w', analyze_batch_sentiment env b w = (Raise e, w') ->
        status_code e <> 503%Z)).
Proof.
  split; [|split].
  - intros H. split; intros x.
    + apply analyze_sentiment_unloaded; assumption.
    + apply analyze_batch_unloaded; assumption.
  - split; intros x r w' Hrun Hnone.
    + rewrite (analyze_sentiment_unloaded _ _ _ Hnone) in Hrun. discriminate.
    + rewrite (analyze_batch_unloaded _ _ _ Hnone) in Hrun. discriminate.
  - intros Hl. split.
    + intros i e w'. rewrite (analyze_sentiment_loaded _ _ w Hl).
      destruct (blank (TextInput.text i)).
      * intros H; inversion H. simpl. lia.
      * intros H. apply analyze_single_text_status in H. lia.
    + intros b e w' H.
      destruct (BatchTextInput.texts b) as [|t texts] eqn:Et.
      * rewrite (analyze_batch_empty _ _ w Hl Et) in H. inversion H. simpl. lia.
      * destruct (Nat.leb_spec (List.length (BatchTextInput.texts b)) 100)
          as [Hle|Hgt].
        -- assert (Hn : (0 < List.length (BatchTextInput.texts b) <= 100)%nat)
             by (split; [rewrite Et; simpl; lia | exact Hle]).
           rewrite (analyze_batch_accepted_status _ _ _ _ _ Hl Hn H). lia.
        -- rewrite (analyze_batch_too_long _ _ w Hl Hgt) in H. inversion H.
           simpl. lia.
Qed.

(** C9. The availability check comes before input validation in both
    endpoints: with the primary model unavailable, POST /analyze on a
    whitespace-only text, and POST /analyze/batch on an empty or oversized
    list, answer 503 and not 400. *)
Theorem C9_availability_before_validation env w :
  sentiment_pipeline env = None ->
  (forall i, forallb isspace (TextInput.text i) = true ->
     exists e, analyze_sentiment env i w = (Raise e, w) /\
               status_code e = 503%Z /\ status_code e <> 400%Z) /\
  (forall b, BatchTextInput.texts b = [] \/
             (100 < List.length (BatchTextInput.texts b))%nat ->
     exists e, analyze_batch_sentiment env b w = (Raise e, w) /\
               status_code e = 503%Z /\ status_code e <> 400%Z).
Proof.
  intros H. split.
  - intros i _. eexists. split; [apply analyze_sentiment_unloaded; exact H|].
    simpl. split; [reflexivity | discriminate].
  - intros b _. eexists. split; [apply analyze_batch_unloaded; exact H|].
    simpl. split; [reflexivity | discriminate].
Qed.

(** C3, amended. With the primary model loaded, a single-text request
    whose text is empty or made of whitespace only fails with a 400 and
    nothing is run (with the model not loaded the 503 comes first); the
    rejection exists in single mode only: a batch of accepted size never
    fails with a 400, whatever blank texts it holds. *)
Theorem C3_blank_text_rejected env w :
  sentiment_pipeline env <> None ->
  (forall i, forallb isspace (TextInput.text i) = true ->
     analyze_sentiment env i w =
       (Raise (mkHTTPException 400 (lit "Text cannot be empty")), w)) /\
  (forall b e w',
     (0 < List.length (BatchTextInput.texts b) <= 100)%nat ->
     analyze_batch_sentiment env b w = (Raise e, w') ->
     status_code e = 500%Z /\ status_code e <> 400%Z).
Proof.
  intros Hl. split.
  - intros i Hb. apply blank_true in Hb.
    rewrite (analyze_sentiment_loaded _ _ w Hl), Hb. reflexivity.
  - intros b e w' Hn H.
    rewrite (analyze_batch_accepted_status _ _ _ _ _ Hl Hn H).
    split; [reflexivity | discriminate].
Qed.

(** C2, amended. With the primary model loaded, a batch request fails with
    a 400 if its list of texts is empty or longer than 100; a list of 1 to
    100 texts, one of exactly 100 among them, passes validation (the only
    error left is the 500 of a failed inference); a batch of whitespace-only
    texts returns an empty results sequence, the world untouched but for two
    clock readings, and a total_processing_time that is the difference of
    the two readings, so non-negative exactly when the wall clock was not
    set back between them. *)
Theorem C2_batch_size_validation env w b :
  sentiment_pipeline env <> None ->
  (BatchTextInput.texts b = [] ->
     analyze_batch_sentiment env b w =
       (Raise (mkHTTPException 400 (lit "Texts list cannot be empty")), w)) /\
  ((100 < List.length (BatchTextInput.texts b))%nat ->
     analyze_batch_sentiment env b w =
       (Raise (mkHTTPException 400 (lit "Maximum 100 texts per batch")), w)) /\
  ((0 < List.length (BatchTextInput.texts b) <= 100)%nat ->
     (forall e w', analyze_batch_sentiment env b w = (Raise e, w') ->
        status_code e = 500%Z) /\
     (Forall (fun t => forallb isspace t = true) (BatchTextInput.texts b) ->
        exists br,
          analyze_batch_sentiment env b w =
            (Return br, mkWorld (clock w) (S (S (reads w))) (trace w)) /\
          BatchSentimentResult.results br = [] /\
          BatchSentimentResult.total_processing_time br =
            (clock w (S (reads w)) - clock w (reads w))%Z /\
          ((0 <= BatchSentimentResult.total_processing_time br)%Z <->
           (clock w (reads w) <= clock w (S (reads w)))%Z))).
Proof.
  intros Hl. split; [|split].
  - apply analyze_batch_empty; assumption.
  - apply analyze_batch_too_long; assumption.
  - intros Hn. split.
    + intros e w'. apply analyze_batch_accepted_status; assumption.
    + intros Hall. rewrite (analyze_batch_accepted _ _ w Hl Hn).
      rewrite for_text_in_all_blank.
      * eexists. split; [reflexivity|]. simpl.
        split; [reflexivity|]. split; [reflexivity|]. lia.
      * revert Hall. apply Forall_impl. intros t. apply blank_true.
Qed.

(** ** Dictionaries built by the comprehension *)

Lemma str_eqb_sym (a b : str) : str_eqb a b = str_eqb b a.
Proof.
  destruct (str_eqb a b) eqn:E.
  - apply str_eqb_eq in E. subst. symmetry. apply str_eqb_refl.
  - destruct (str_eqb b a) eqn:E'; [|reflexivity].
    apply str_eqb_eq in E'. subst. rewrite str_eqb_refl in E. discriminate.
Qed.

Lemma dict_get_setitem (d : pydict) (k' : str) (v : float) (k : str) :
  dict_get (dict_setitem d k' v) k =
  if str_eqb k' k then Some v else dict_get d k.
Proof.
  induction d as [|[x u] d IH]; simpl.
  - reflexivity.
  - destruct (str_eqb x k') eqn:E; simpl.
    + apply str_eqb_eq in E. subst. destruct (str_eqb k' k); reflexivity.
    + rewrite IH. destruct (str_eqb x k) eqn:E'; [|reflexivity].
      apply str_eqb_eq in E'. subst.
      rewrite str_eqb_sym, E. reflexivity.
Qed.

Lemma dict_setitem_keys (d : pydict) (k : str) (v : float) :
  dict_keys (dict_setitem d k v) =
  if str_in k (dict_keys d) then dict_keys d else dict_keys d ++ [k].
Proof.
  unfold dict_keys, str_in. induction d as [|[x u] d IH]; simpl.
  - reflexivity.
  - rewrite (str_eqb_sym k x). destruct (str_eqb x k); simpl.
    + reflexivity.
    + rewrite IH. destruct (existsb (str_eqb k) (map fst d)); reflexivity.
Qed.

Lemma dict_setitem_fresh (d : pydict) (k : str) (v : float) :
  ~ In k (dict_keys d) -> dict_setitem d k v = d ++ [(k, v)].
Proof.
  unfold dict_keys. induction d as [|[x u] d IH]; simpl; intros H.
  - reflexivity.
  - destruct (str_eqb x k) eqn:E.
    + apply str_eqb_eq in E. tauto.
    + rewrite IH; [reflexivity | tauto].
Qed.

Lemma filter_filter {A} (f g : A -> bool) (l : list A) :
  filter f (filter g l) = filter (fun x => g x && f x) l.
Proof.
  induction l as [|x l IH]; simpl; [reflexivity|].
  destruct (g x); simpl; [destruct (f x)|]; rewrite IH; reflexivity.
Qed.

Lemma str_in_app (x : str) (l1 l2 : list str) :
  str_in x (l1 ++ l2) = str_in x l1 || str_in x l2.
Proof. unfold str_in. apply existsb_app. Qed.

Lemma fold_setitem_keys (rs : list Prediction) : forall d : pydict,
  dict_keys (fold_left (fun d r => dict_setitem d (label r) (pred_score r))
               rs d) =
  dict_keys d ++
  filter (fun y => negb (str_in y (dict_keys d)))
         (first_occurrences (map label rs)).
Proof.
  induction rs as [|r rs IH]; intros d; simpl.
  - rewrite app_nil_r. reflexivity.
  - rewrite IH, dict_setitem_keys, filter_filter.
    destruct (str_in (label r) (dict_keys d)) eqn:E; simpl.
    + f_equal. apply filter_ext. intros y.
      destruct (str_eqb (label r) y) eqn:Ey; simpl; [|reflexivity].
      apply str_eqb_eq in Ey. subst. rewrite E. reflexivity.
    + rewrite <- app_assoc. simpl. do 2 f_equal. apply filter_ext. intros y.
      rewrite str_in_app. unfold str_in at 2. simpl.
      rewrite orb_false_r, (str_eqb_sym y (label r)), negb_orb.
      apply andb_comm.
Qed.

Lemma fold_setitem_get (k : str) (rs : list Prediction) : forall d : pydict,
  dict_get (fold_left (fun d r => dict_setitem d (label r) (pred_score r))
              rs d) k =
  match last_score k rs with
  | Some v => Some v
  | None => dict_get d k
  end.
Proof.
  induction rs as [|r rs IH]; intros d; simpl; [reflexivity|].
  rewrite IH, dict_get_setitem.
  destruct (last_score k rs); [reflexivity|].
  destruct (str_eqb (label r) k); reflexivity.
Qed.

Lemma fold_setitem_distinct (rs : list Prediction) : forall d : pydict,
  NoDup (map label rs) ->
  (forall k, In k (map label rs) -> ~ In k (dict_keys d)) ->
  fold_left (fun d r => dict_setitem d (label r) (pred_score r)) rs d =
  d ++ map (fun r => (label r, pred_score r)) rs.
Proof.
  induction rs as [|r rs IH]; intros d Hnd Hfresh; simpl.
  - rewrite app_nil_r. reflexivity.
  - inversion Hnd as [|x l Hx Hnd']; subst.
    rewrite dict_setitem_fresh by (apply Hfresh; left; reflexivity).
    rewrite IH; [rewrite <- app_assoc; reflexivity | exact Hnd' |].
    intros k Hk. unfold dict_keys. rewrite map_app, in_app_iff. simpl.
    intros [H|[H|[]]].
    + apply (Hfresh k); [right; exact Hk | exact H].
    + subst. contradiction.
Qed.

Lemma filter_true {A} (l : list A) : filter (fun _ => true) l = l.
Proof. induction l as [|x l IH]; simpl; [|rewrite IH]; reflexivity. Qed.

(** The keys are the labels in ranking order, each at its first place;
    a label's value is the score of its last prediction. *)
Lemma dict_comprehension_keys (rs : list Prediction) :
  dict_keys (dict_comprehension rs) = first_occurrences (map label rs).
Proof.
  unfold dict_comprehension. rewrite fold_setitem_keys. simpl.
  apply filter_true.
Qed.

Lemma dict_comprehension_get (rs : list Prediction) (k : str) :
  dict_get (dict_comprehension rs) k = last_score k rs.
Proof.
  unfold dict_comprehension. rewrite fold_setitem_get. simpl.
  destruct (last_score k rs); reflexivity.
Qed.

Lemma dict_comprehension_distinct (rs : list Prediction) :
  NoDup (map label rs) ->
  dict_comprehension rs = map (fun r => (label r, pred_score r)) rs.
Proof.
  intros H. unfold dict_comprehension.
  rewrite fold_setitem_distinct; [reflexivity | exact H | intros k _ []].
Qed.

(** ** Emotions *)

Lemma analyze_single_text_returns_inv env text w sr w' :
  analyze_single_text env text w = (Return sr, w') ->
  SentimentResult.text sr = text /\
  SentimentResult.emotions sr = emotions_of env text /\
  exists r, single_outcome env text = Return r.
Proof.
  destruct (single_outcome env text) as [r|c|b] eqn:E.
  - rewrite (analyze_single_text_returns _ _ w _ E). intros H; inversion H.
    simpl. eauto.
  - rewrite (analyze_single_text_raises _ _ w _ E). discriminate.
  - rewrite (analyze_single_text_uncaught _ _ w _ E). discriminate.
Qed.

(** C8. When the emotion classifier is present and succeeds, the emotions
    of the result are built from the first 3 predictions of its output and
    from nothing else, as a mapping from label to score whose keys stand in
    the engine's ranking order. *)
Theorem C8_top3_emotions env text w p r rest q rs :
  sentiment_pipeline env = Some p ->
  p text = Return (r :: rest) ->
  emotion_pipeline env = Some q ->
  q text = Return rs ->
  exists sr w' d,
    analyze_single_text env text w = (Return sr, w') /\
    SentimentResult.emotions sr = Some d /\
    d = dict_comprehension (firstn 3 rs) /\
    dict_keys d = first_occurrences (map label (firstn 3 rs)) /\
    (forall k, dict_get d k = last_score k (firstn 3 rs)) /\
    (NoDup (map label (firstn 3 rs)) ->
       d = map (fun x => (label x, pred_score x)) (firstn 3 rs)).
Proof.
  intros Hp Hr Hq Hrs.
  assert (Hfp : single_outcome env text = Return r)
    by (unfold single_outcome, first_prediction;
        rewrite Hp, Hr, Hq, Hrs; reflexivity).
  eexists; eexists; exists (dict_comprehension (firstn 3 rs)).
  split; [apply (analyze_single_text_returns _ _ w _ Hfp)|].
  cbn [SentimentResult.emotions]. unfold emotions_of. rewrite Hq, Hrs.
  split; [reflexivity|]. split; [reflexivity|].
  split; [apply dict_comprehension_keys|].
  split; [intros k; apply dict_comprehension_get|].
  apply dict_comprehension_distinct.
Qed.

(** ** Returned results *)

Lemma blank_spec (s : str) : blank s = forallb isspace s.
Proof.
  pose proof (blank_true s) as H.
  destruct (blank s), (forallb isspace s); try reflexivity.
  - symmetry. apply H. reflexivity.
  - apply H. reflexivity.
Qed.

Lemma non_blank_spec (texts : list str) :
  non_blank texts = filter (fun t => negb (forallb isspace t)) texts.
Proof.
  unfold non_blank. apply filter_ext. intros t. rewrite blank_spec.
  reflexivity.
Qed.

Lemma analyze_sentiment_returns_inv env i w sr w' :
  analyze_sentiment env i w = (Return sr, w') ->
  sentiment_pipeline env <> None /\
  blank (TextInput.text i) = false /\
  analyze_single_text env (TextInput.text i) w = (Return sr, w').
Proof.
  intros H.
  destruct (sentiment_pipeline env) as [p|] eqn:Ep.
  - assert (Hl : sentiment_pipeline env <> None) by congruence.
    rewrite (analyze_sentiment_loaded _ _ w Hl) in H.
    destruct (blank (TextInput.text i)); [discriminate|].
    repeat split; [discriminate | exact H].
  - rewrite (analyze_sentiment_unloaded _ _ _ Ep) in H. discriminate.
Qed.

Lemma analyze_batch_returns_inv env b w br w' :
  analyze_batch_sentiment env b w = (Return br, w') ->
  sentiment_pipeline env <> None /\
  (0 < List.length (BatchTextInput.texts b) <= 100)%nat /\
  first_failure env (BatchTextInput.texts b) = None /\
  Forall2 (fun t sr =>
             SentimentResult.text sr = t /\
             exists w1 w2, analyze_single_text env t w1 = (Return sr, w2))
          (non_blank (BatchTextInput.texts b))
          (BatchSentimentResult.results br) /\
  trace w' =
    trace w ++ flat_map (single_events env) (non_blank (BatchTextInput.texts b)).
Proof.
  intros H.
  destruct (sentiment_pipeline env) as [p|] eqn:Ep;
    [|rewrite (analyze_batch_unloaded _ _ _ Ep) in H; discriminate].
  assert (Hl : sentiment_pipeline env <> None) by congruence.
  rewrite <- Ep in *. clear Ep p.
  destruct (BatchTextInput.texts b) as [|t texts] eqn:Et;
    [rewrite (analyze_batch_empty _ _ w Hl Et) in H; discriminate|].
  rewrite <- Et in *.
  destruct (Nat.leb_spec (List.length (BatchTextInput.texts b)) 100)
    as [Hle|Hgt];
    [|rewrite (analyze_batch_too_long _ _ w Hl Hgt) in H; discriminate].
  assert (Hn : (0 < List.length (BatchTextInput.texts b) <= 100)%nat)
    by (split; [rewrite Et; simpl; lia | exact Hle]).
  rewrite (analyze_batch_accepted _ _ w Hl Hn) in H.
  set (w1 := mkWorld (clock w) (S (reads w)) (trace w)) in *.
  pose proof (for_text_in_run env (BatchTextInput.texts b) [] w1) as R.
  pose proof (for_text_in_trace env (BatchTextInput.texts b) [] w1) as T.
  destruct (first_failure env (BatchTextInput.texts b)) as [[t' [c|b']]|]
    eqn:Ef.
  - destruct R as (w2 & R). rewrite R in H. discriminate.
  - destruct R as (w2 & R). rewrite R in H. discriminate.
  - destruct R as (new & w2 & R & Hall). rewrite R in H, T.
    inversion H; subst. simpl in *.
    rewrite (processed_no_failure _ _ Ef) in T.
    repeat split; try assumption; lia.
Qed.

Lemma single_events_args env t r :
  single_outcome env t = Return r ->
  sentiment_args (single_events env t) = [t] /\
  emotion_args (single_events env t) =
    if is_not_None (emotion_pipeline env) then [t] else [].
Proof.
  intros H. pose proof (single_outcome_returns _ _ _ H) as Hf.
  unfold single_events. rewrite Hf.
  unfold first_prediction in Hf.
  destruct (sentiment_pipeline env) as [p|]; [|discriminate].
  unfold emotion_events.
  destruct (emotion_pipeline env) as [q|]; simpl;
    [destruct (q t)|]; split; reflexivity.
Qed.

Lemma flat_map_events_args env (l : list str) :
  (forall t, In t l -> exists r, single_outcome env t = Return r) ->
  sentiment_args (flat_map (single_events env) l) = l /\
  emotion_args (flat_map (single_events env) l) =
    if is_not_None (emotion_pipeline env) then l else [].
Proof.
  unfold sentiment_args, emotion_args.
  induction l as [|t l IH]; intros H; simpl.
  - destruct (is_not_None (emotion_pipeline env)); split; reflexivity.
  - destruct (H t (or_introl eq_refl)) as [r Hr].
    destruct (single_events_args env t r Hr) as [Hs He].
    destruct IH as [IHs IHe]; [intros x Hx; apply H; right; exact Hx|].
    unfold sentiment_args, emotion_args in Hs, He.
    rewrite !flat_map_app, Hs, He, IHs, IHe.
    destruct (is_not_None (emotion_pipeline env)); split; reflexivity.
Qed.

Lemma non_blank_In (texts : list str) (t : str) :
  In t (non_blank texts) <-> In t texts /\ blank t = false.
Proof.
  unfold non_blank. rewrite filter_In.
  destruct (blank t); simpl; intuition congruence.
Qed.

Lemma for_text_in_skip env pre t post : forall acc w,
  blank t = true ->
  for_text_in env (pre ++ t :: post) acc w = for_text_in env (pre ++ post) acc w.
Proof.
  induction pre as [|x pre IH]; intros acc w Hb; simpl.
  - rewrite truthy_strip, Hb. reflexivity.
  - destruct (truthy (strip x)); [|apply IH; exact Hb].
    unfold bind. destruct (analyze_single_text env x w) as [[r|e|b] w1];
      [apply IH; exact Hb | reflexivity | reflexivity].
Qed.

Lemma first_failure_app env pre l :
  (forall x, In x pre ->
     blank x = true \/ exists r, single_outcome env x = Return r) ->
  first_failure env (pre ++ l) = first_failure env l.
Proof.
  induction pre as [|x pre IH]; intros H; simpl; [reflexivity|].
  destruct (blank x) eqn:Eb.
  - apply IH. intros y Hy. apply H. right. exact Hy.
  - destruct (H x (or_introl eq_refl)) as [Hx|[r Hr]]; [congruence|].
    rewrite Hr. apply IH. intros y Hy. apply H. right. exact Hy.
Qed.

Lemma first_prediction_returns env p t :
  sentiment_pipeline env = Some p ->
  forall r, first_prediction env t = Return r <->
            exists rest, p t = Return (r :: rest).
Proof.
  intros Hp r. unfold first_prediction. rewrite Hp.
  destruct (p t) as [[|r' rest]|e|b]; split;
    try discriminate; try (intros [x Hx]; discriminate Hx).
  - intros H; inversion H; subst. eauto.
  - intros [x Hx]. inversion Hx; subst. reflexivity.
Qed.

Lemma first_prediction_raises env p t c :
  sentiment_pipeline env = Some p ->
  first_prediction env t = Raise c ->
  p t = Raise c \/ (p t = Return [] /\ c = lit "list index out of range").
Proof.
  intros Hp. unfold first_prediction. rewrite Hp.
  destruct (p t) as [[|r' rest]|e|b]; intros H; inversion H; subst; auto.
Qed.

(** A [BaseException] comes out of a run from the primary model or, past
    a first prediction, from the secondary one. *)
Lemma single_outcome_uncaught env t b :
  single_outcome env t = Uncaught b ->
  (exists p, sentiment_pipeline env = Some p /\ p t = Uncaught b) \/
  (exists r q, first_prediction env t = Return r /\
               emotion_pipeline env = Some q /\ q t = Uncaught b).
Proof.
  unfold single_outcome.
  destruct (first_prediction env t) as [r|e|b'] eqn:Ef; [|discriminate|].
  - destruct (emotion_pipeline env) as [q|]; [|discriminate].
    destruct (q t) as [rs|e|b'] eqn:Eq; try discriminate.
    intros H; inversion H; subst. right. exists r, q. auto.
  - intros H; inversion H; subst. left.
    unfold first_prediction in Ef.
    destruct (sentiment_pipeline env) as [p|]; [|discriminate].
    exists p. split; [reflexivity|].
    destruct (p t) as [[|r rest]|e|b']; congruence.
Qed.

(** C6, amended. Emotion classification is best-effort as far as
    [Exception]s go. If the secondary model is absent, or raises an
    [Exception] on the text, a request whose primary classification
    succeeded still succeeds, with no emotions in its result; a request
    fails with an error of its own only when the primary classification
    did. A [BaseException] outside [Exception] that the secondary model
    raises is not caught: it goes up, with no result and no warning
    logged. When the secondary model is unavailable, every result, of a
    single request or in a batch, lacks emotions, and the health check
    reports emotion_loaded = false. *)
Theorem C6_emotions_best_effort env :
  (forall text w p r rest,
     sentiment_pipeline env = Some p ->
     p text = Return (r :: rest) ->
     emotion_pipeline env = None \/
     (exists q e, emotion_pipeline env = Some q /\ q text = Raise e) ->
     exists sr w',
       analyze_single_text env text w = (Return sr, w') /\
       SentimentResult.emotions sr = None) /\
  (forall text w e w',
     analyze_single_text env text w = (Raise e, w') ->
     exists c, first_prediction env text = Raise c) /\
  (forall text w p r rest q b,
     sentiment_pipeline env = Some p ->
     p text = Return (r :: rest) ->
     emotion_pipeline env = Some q ->
     q text = Uncaught b ->
     analyze_single_text env text w =
       (Uncaught b,
        mkWorld (clock w) (S (reads w))
          (trace w ++ [SentimentCall text; EmotionCall text]))) /\
  (emotion_pipeline env = None ->
     (forall i w sr w',
        analyze_sentiment env i w = (Return sr, w') ->
        SentimentResult.emotions sr = None) /\
     (forall b w br w',
        analyze_batch_sentiment env b w = (Return br, w') ->
        Forall (fun sr => SentimentResult.emotions sr = None)
               (BatchSentimentResult.results br)) /\
     (forall w, exists h w',
        health_check env w = (Return h, w') /\
        Health.emotion_loaded h = false)).
Proof.
  split; [|split; [|split]].
  - intros text w p r rest Hp Hr Hemo.
    assert (Hfp : single_outcome env text = Return r).
    { unfold single_outcome, first_prediction. rewrite Hp, Hr.
      destruct Hemo as [->|(q & e & -> & ->)]; reflexivity. }
    eexists; eexists.
    split; [apply (analyze_single_text_returns _ _ w _ Hfp)|].
    cbn [SentimentResult.emotions]. unfold emotions_of.
    destruct Hemo as [->|(q & e & -> & ->)]; reflexivity.
  - intros text w e w'.
    destruct (single_outcome env text) as [r|c|b] eqn:E.
    + rewrite (analyze_single_text_returns _ _ w _ E). discriminate.
    + intros _. exists c. apply single_outcome_raises. exact E.
    + rewrite (analyze_single_text_uncaught _ _ w _ E). discriminate.
  - intros text w p r rest q b Hp Hr Hq Hb.
    assert (Hso : single_outcome env text = Uncaught b)
      by (unfold single_outcome, first_prediction;
          rewrite Hp, Hr, Hq, Hb; reflexivity).
    rewrite (analyze_single_text_uncaught _ _ w _ Hso).
    unfold single_events, first_prediction, emotion_events.
    rewrite Hp, Hr, Hq, Hb. reflexivity.
  - intros Hnone.
    assert (Hemo : forall t, emotions_of env t = None)
      by (intros t; unfold emotions_of; rewrite Hnone; reflexivity).
    split; [|split].
    + intros i w sr w' H.
      apply analyze_sentiment_returns_inv in H. destruct H as (_ & _ & H).
      apply analyze_single_text_returns_inv in H.
      destruct H as (_ & -> & _). apply Hemo.
    + intros b w br w' H.
      apply analyze_batch_returns_inv in H.
      destruct H as (_ & _ & _ & Hall & _).
      induction Hall as [|t sr ts srs (_ & w1 & w2 & Hrun) _ IH];
        constructor; [|exact IH].
      apply analyze_single_text_returns_inv in Hrun.
      destruct Hrun as (_ & -> & _). apply Hemo.
    + intros w. unfold health_check, bind, now, ret. simpl.
      eexists; eexists. split; [reflexivity|]. simpl. rewrite Hnone.
      reflexivity.
Qed.

(** C4. In an accepted batch the texts that are empty or made of whitespace
    only are skipped silently (taking one out of the list changes neither
    the response nor the world); every other text gives exactly one
    SentimentResult, and the results stand in the order of the texts that
    were not skipped, the primary model having been called on them one
    after the other in that order; the batch returns whenever the primary
    classification succeeds on each of these texts, but for a
    [BaseException] outside [Exception] that the secondary model lets out
    on one of them, which goes up uncaught. *)
Theorem C4_batch_results_in_order env p w b :
  sentiment_pipeline env = Some p ->
  (0 < List.length (BatchTextInput.texts b) <= 100)%nat ->
  (forall pre t post,
     BatchTextInput.texts b = pre ++ t :: post ->
     forallb isspace t = true ->
     pre ++ post <> [] ->
     analyze_batch_sentiment env (BatchTextInput.make (pre ++ post)) w =
     analyze_batch_sentiment env b w) /\
  (forall br w',
     analyze_batch_sentiment env b w = (Return br, w') ->
     map SentimentResult.text (BatchSentimentResult.results br) =
       filter (fun t => negb (forallb isspace t)) (BatchTextInput.texts b) /\
     Forall2 (fun t sr =>
                exists w1 w2, analyze_single_text env t w1 = (Return sr, w2))
             (filter (fun t => negb (forallb isspace t))
                     (BatchTextInput.texts b))
             (BatchSentimentResult.results br) /\
     exists evs,
       trace w' = trace w ++ evs /\
       sentiment_args evs =
         filter (fun t => negb (forallb isspace t)) (BatchTextInput.texts b)) /\
  ((forall t, In t (BatchTextInput.texts b) -> forallb isspace t = false ->
              exists r rest, p t = Return (r :: rest)) ->
   (exists br w', analyze_batch_sentiment env b w = (Return br, w')) \/
   (exists t q b0 w',
      In t (BatchTextInput.texts b) /\ forallb isspace t = false /\
      emotion_pipeline env = Some q /\ q t = Uncaught b0 /\
      analyze_batch_sentiment env b w = (Uncaught b0, w'))).
Proof.
  intros Hp Hn.
  assert (Hl : sentiment_pipeline env <> None) by congruence.
  split; [|split].
  - intros pre t post Et Hb Hne. apply blank_true in Hb.
    assert (Hn' : (0 < List.length
                     (BatchTextInput.texts (BatchTextInput.make (pre ++ post)))
                   <= 100)%nat).
    { cbn [BatchTextInput.texts]. rewrite Et in Hn.
      rewrite length_app in Hn. cbn [List.length] in Hn.
      destruct (pre ++ post) as [|x l] eqn:E; [congruence|].
      rewrite <- E, length_app. split; [|lia].
      apply (f_equal (@List.length str)) in E.
      rewrite length_app in E. cbn [List.length] in E. lia. }
    rewrite (analyze_batch_accepted _ _ w Hl Hn),
            (analyze_batch_accepted _ _ w Hl Hn').
    simpl. rewrite Et, (for_text_in_skip env pre t post _ _ Hb). reflexivity.
  - intros br w' H. apply analyze_batch_returns_inv in H.
    destruct H as (_ & _ & Hff & Hall & Htr).
    rewrite <- non_blank_spec. split; [|split].
    + clear Htr. induction Hall as [|t sr ts srs (Ht & _) _ IH]; simpl;
        [reflexivity | rewrite Ht, IH; reflexivity].
    + revert Hall. apply Forall2_impl. intros t sr (_ & H). exact H.
    + eexists. split; [exact Htr|].
      apply flat_map_events_args. intros t Ht.
      apply non_blank_In in Ht. destruct Ht as [Hin Hb].
      apply (proj1 (first_failure_none env _) Hff t Hin Hb).
  - intros Hok.
    rewrite (analyze_batch_accepted _ _ w Hl Hn).
    match goal with |- context [for_text_in env ?l ?a ?v] =>
      pose proof (for_text_in_run env l a v) as R end.
    destruct (first_failure env (BatchTextInput.texts b)) as [[t [c|b0]]|]
      eqn:Ef.
    + exfalso. destruct (first_failure_some _ _ _ _ Ef) as (Hin & Hb & Hso).
      rewrite blank_spec in Hb. destruct (Hok t Hin Hb) as (r & rest & Hr).
      apply single_outcome_raises in Hso.
      assert (first_prediction env t = Return r)
        by (apply (first_prediction_returns env p t Hp); eauto).
      congruence.
    + right. destruct (first_failure_some _ _ _ _ Ef) as (Hin & Hb & Hso).
      rewrite blank_spec in Hb. destruct (Hok t Hin Hb) as (r & rest & Hr).
      destruct (single_outcome_uncaught _ _ _ Hso)
        as [(p' & Hp' & Hu)|(r' & q & _ & Hq & Hu)].
      * rewrite Hp in Hp'. inversion Hp'; subst. congruence.
      * destruct R as (w2 & R). rewrite R.
        exists t, q, b0, w2. auto.
    + left. destruct R as (new & w2 & R & _). rewrite R.
      eexists; eexists; reflexivity.
Qed.

(** C5, amended. If the primary classifier raises an [Exception] on a text
    of an accepted batch (a text it is run on, so one that is not
    skipped), the batch returns no result: either it fails as a whole with
    a 500 whose message ends with the cause of the first failed
    classification, or a [BaseException] outside [Exception], which no
    handler catches, went up from a model on one of its texts. When every text
    before the raising one is skipped or analysed, the batch fails with
    the 500 of that very exception. *)
Theorem C5_batch_aborts_on_failure env p w b t e :
  sentiment_pipeline env = Some p ->
  (0 < List.length (BatchTextInput.texts b) <= 100)%nat ->
  In t (BatchTextInput.texts b) ->
  forallb isspace t = false ->
  p t = Raise e ->
  ((exists t' cause w',
      analyze_batch_sentiment env b w =
        (Raise (mkHTTPException 500 (lit "Analysis failed: " ++ cause)), w') /\
      In t' (BatchTextInput.texts b) /\
      forallb isspace t' = false /\
      (p t' = Raise cause \/
       (p t' = Return [] /\ cause = lit "list index out of range"))) \/
   (exists t' b0 w',
      analyze_batch_sentiment env b w = (Uncaught b0, w') /\
      In t' (BatchTextInput.texts b) /\
      forallb isspace t' = false /\
      single_outcome env t' = Uncaught b0)) /\
  (forall pre post,
     BatchTextInput.texts b = pre ++ t :: post ->
     (forall x, In x pre ->
        forallb isspace x = true \/ exists r, single_outcome env x = Return r) ->
     exists w',
       analyze_batch_sentiment env b w =
         (Raise (mkHTTPException 500 (lit "Analysis failed: " ++ e)), w')).
Proof.
  intros Hp Hn Hin Hb He.
  assert (Hl : sentiment_pipeline env <> None) by congruence.
  assert (Hft : single_outcome env t = Raise e)
    by (apply single_outcome_raises; unfold first_prediction;
        rewrite Hp, He; reflexivity).
  rewrite (analyze_batch_accepted _ _ w Hl Hn).
  match goal with |- context [for_text_in env ?l ?a ?v] =>
    pose proof (for_text_in_run env l a v) as R end.
  split.
  - destruct (first_failure env (BatchTextInput.texts b)) as [[t' [c|b0]]|]
      eqn:Ef.
    + left. destruct R as (w2 & R). rewrite R.
      destruct (first_failure_some _ _ _ _ Ef) as (Hin' & Hb' & Hc).
      exists t', c, w2. split; [reflexivity|]. split; [exact Hin'|].
      split; [rewrite <- blank_spec; exact Hb'|].
      apply single_outcome_raises in Hc.
      apply (first_prediction_raises env p t' c Hp Hc).
    + right. destruct R as (w2 & R). rewrite R.
      destruct (first_failure_some _ _ _ _ Ef) as (Hin' & Hb' & Hc).
      exists t', b0, w2. split; [reflexivity|]. split; [exact Hin'|].
      split; [rewrite <- blank_spec; exact Hb' | exact Hc].
    + exfalso. rewrite <- blank_spec in Hb.
      destruct (proj1 (first_failure_none env _) Ef t Hin Hb) as [r Hr].
      congruence.
  - intros pre post Et Hpre.
    assert (Ef : first_failure env (BatchTextInput.texts b)
                 = Some (t, Failed e)).
    { rewrite Et, first_failure_app.
      - simpl. rewrite blank_spec, Hb, Hft. reflexivity.
      - intros x Hx. destruct (Hpre x Hx) as [Hx'|Hx'].
        + left. rewrite blank_spec. exact Hx'.
        + right. exact Hx'. }
    rewrite Ef in R. destruct R as (w2 & R). rewrite R. eauto.
Qed.

(** C10. A text that is analysed successfully, alone or in a batch, reaches
    the classifiers as it came: the primary model, and the secondary one
    when loaded, are called on the input string itself, and the text field
    of the result is that same string, untrimmed. *)
Theorem C10_text_verbatim env :
  (forall i w sr w',
     analyze_sentiment env i w = (Return sr, w') ->
     SentimentResult.text sr = TextInput.text i /\
     exists evs,
       trace w' = trace w ++ evs /\
       sentiment_args evs = [TextInput.text i] /\
       emotion_args evs =
         if is_not_None (emotion_pipeline env) then [TextInput.text i]
         else []) /\
  (forall b w br w',
     analyze_batch_sentiment env b w = (Return br, w') ->
     map SentimentResult.text (BatchSentimentResult.results br) =
       filter (fun t => negb (forallb isspace t)) (BatchTextInput.texts b) /\
     exists evs,
       trace w' = trace w ++ evs /\
       sentiment_args evs =
         filter (fun t => negb (forallb isspace t)) (BatchTextInput.texts b) /\
       emotion_args evs =
         if is_not_None (emotion_pipeline env)
         then filter (fun t => negb (forallb isspace t))
                     (BatchTextInput.texts b)
         else []).
Proof.
  split.
  - intros i w sr w' H.
    apply analyze_sentiment_returns_inv in H. destruct H as (_ & _ & H).
    pose proof (analyze_single_text_trace env (TextInput.text i) w) as T.
    rewrite H in T. simpl in T.
    apply analyze_single_text_returns_inv in H.
    destruct H as (Ht & _ & r & Hr).
    split; [exact Ht|]. eexists. split; [exact T|].
    apply (single_events_args env _ r Hr).
  - intros b w br w' H. apply analyze_batch_returns_inv in H.
    destruct H as (_ & _ & Hff & Hall & Htr).
    rewrite <- non_blank_spec. split.
    + clear Htr. induction Hall as [|t sr ts srs (Ht & _) _ IH]; simpl;
        [reflexivity | rewrite Ht, IH; reflexivity].
    + eexists. split; [exact Htr|].
      apply flat_map_events_args. intros t Ht.
      apply non_blank_In in Ht. destruct Ht as [Hin Hb].
      apply (proj1 (first_failure_none env _) Hff t Hin Hb).
Qed.

(** ** Start-up *)

Lemma load_models_run hub env w :
  load_models hub env w =
    match load_sentiment hub with
    | Raise e =>
        (Raise e,
         mkWorld (clock w) (reads w)
           (trace w ++
            [LogInfo (lit "Loading sentiment analysis models...");
             LogError (lit "Error loading models: " ++ e)]))
    | Uncaught b =>
        (Uncaught b,
         mkWorld (clock w) (reads w)
           (trace w ++
            [LogInfo (lit "Loading sentiment analysis models...")]))
    | Return sp =>
        match load_emotion hub with
        | Return ep =>
            (Return (mkEnv (Some sp) (Some ep) (cuda_is_available env)
                       (cuda_device_count env)),
             mkWorld (clock w) (reads w)
               (trace w ++
                [LogInfo (lit "Loading sentiment analysis models...");
                 LogInfo (lit "Emotion analysis model loaded successfully");
                 LogInfo (lit "Models loaded successfully")]))
        | Raise e =>
            (Return (mkEnv (Some sp) None (cuda_is_available env)
                       (cuda_device_count env)),
             mkWorld (clock w) (reads w)
               (trace w ++
                [LogInfo (lit "Loading sentiment analysis models...");
                 LogWarning (lit "Could not load emotion model: " ++ e);
                 LogInfo (lit "Models loaded successfully")]))
        | Uncaught b =>
            (Uncaught b,
             mkWorld (clock w) (reads w)
               (trace w ++
                [LogInfo (lit "Loading sentiment analysis models...")]))
        end
    end.
Proof.
  unfold load_models, try_except, bind, emit, lift, ret, raise. cbn.
  destruct (load_sentiment hub) as [sp|e|b]; cbn.
  - destruct (load_emotion hub) as [ep|e|b]; cbn;
      rewrite <- ?app_assoc; reflexivity.
  - rewrite <- app_assoc. reflexivity.
  - reflexivity.
Qed.

(** A secondary model that fails to load leaves the service running with
    [emotion_pipeline] at [None]; the primary model's failure escapes. *)
Lemma load_models_emotion_failure hub env w sp e :
  load_sentiment hub = Return sp ->
  load_emotion hub = Raise e ->
  exists w',
    load_models hub env w =
      (Return (mkEnv (Some sp) None (cuda_is_available env)
                 (cuda_device_count env)), w').
Proof.
  intros Hs He. rewrite load_models_run, Hs, He. eexists. reflexivity.
Qed.

Lemma load_models_sentiment_failure hub env w e :
  load_sentiment hub = Raise e ->
  exists w', load_models hub env w = (Raise e, w').
Proof.
  intros Hs. rewrite load_models_run, Hs. eexists. reflexivity.
Qed.

(** ** Start-up, and the service it leaves *)

Lemma loaded_single_not_503 env i w e w' :
  sentiment_pipeline env <> None ->
  analyze_sentiment env i w = (Raise e, w') -> status_code e <> 503%Z.
Proof.
  intros Hl. rewrite (analyze_sentiment_loaded _ _ w Hl).
  destruct (blank (TextInput.text i)).
  - intros H; inversion H. simpl. lia.
  - intros H. apply analyze_single_text_status in H. lia.
Qed.

Lemma batch_size_cases (b : BatchTextInput.t) :
  BatchTextInput.texts b = [] \/
  (100 < List.length (BatchTextInput.texts b))%nat \/
  (0 < List.length (BatchTextInput.texts b) <= 100)%nat.
Proof.
  destruct (BatchTextInput.texts b) as [|t l]; [left; reflexivity|].
  right. simpl. lia.
Qed.

Lemma loaded_batch_not_503 env b w e w' :
  sentiment_pipeline env <> None ->
  analyze_batch_sentiment env b w = (Raise e, w') -> status_code e <> 503%Z.
Proof.
  intros Hl H. destruct (batch_size_cases b) as [He|[Hgt|Hn]].
  - rewrite (analyze_batch_empty _ _ w Hl He) in H. inversion H. simpl. lia.
  - rewrite (analyze_batch_too_long _ _ w Hl Hgt) in H. inversion H.
    simpl. lia.
  - rewrite (analyze_batch_accepted_status _ _ _ _ _ Hl Hn H). lia.
Qed.

(** X1. Start-up raises an [Exception] exactly when the loading of the
    primary model raises one, and then that very exception, logged as an
    error. An [Exception] from the loading of the secondary model is only
    logged as a warning and leaves the service started with
    [emotion_pipeline] at [None]. A [BaseException] outside [Exception]
    from either loading is not caught: it goes up with nothing logged
    about it. After a successful start-up the primary model is loaded. *)
Theorem load_models_outcome hub env w :
  (forall e, load_sentiment hub = Raise e ->
     exists w',
       load_models hub env w = (Raise e, w') /\
       trace w' =
         trace w ++ [LogInfo (lit "Loading sentiment analysis models...");
                     LogError (lit "Error loading models: " ++ e)]) /\
  (forall sp ep, load_sentiment hub = Return sp ->
     load_emotion hub = Return ep ->
     exists w',
       load_models hub env w =
         (Return (mkEnv (Some sp) (Some ep) (cuda_is_available env)
                    (cuda_device_count env)), w')) /\
  (forall sp e, load_sentiment hub = Return sp ->
     load_emotion hub = Raise e ->
     exists w',
       load_models hub env w =
         (Return (mkEnv (Some sp) None (cuda_is_available env)
                    (cuda_device_count env)), w') /\
       In (LogWarning (lit "Could not load emotion model: " ++ e))
          (trace w')) /\
  (forall b,
     load_sentiment hub = Uncaught b \/
     (exists sp, load_sentiment hub = Return sp /\
                 load_emotion hub = Uncaught b) ->
     exists w',
       load_models hub env w = (Uncaught b, w') /\
       trace w' =
         trace w ++ [LogInfo (lit "Loading sentiment analysis models...")]) /\
  ((exists e w', load_models hub env w = (Raise e, w')) <->
   (exists e, load_sentiment hub = Raise e)) /\
  (forall env' w', load_models hub env w = (Return env', w') ->
     sentiment_pipeline env' <> None).
Proof.
  rewrite load_models_run. repeat split.
  - intros e ->. eexists. split; reflexivity.
  - intros sp ep -> ->. eexists. reflexivity.
  - intros sp e -> ->. eexists. split; [reflexivity|].
    cbn. apply in_or_app. right. right. left. reflexivity.
  - intros b [->|(sp & -> & ->)]; eexists; split; reflexivity.
  - intros (e & w' & H). destruct (load_sentiment hub) as [sp|e0|b0].
    + destruct (load_emotion hub); discriminate H.
    + eauto.
    + discriminate H.
  - intros (e & ->). eauto.
  - intros env' w' H. destruct (load_sentiment hub) as [sp|e0|b0];
      [|discriminate H | discriminate H].
    destruct (load_emotion hub); inversion H; subst; discriminate.
Qed.

(** X2. Once start-up has succeeded, no request to either endpoint is
    answered 503, and GET / and GET /health both report the sentiment
    model as loaded. *)
Theorem started_service_available hub env w env' w' :
  load_models hub env w = (Return env', w') ->
  (forall i w1 e w2,
     analyze_sentiment env' i w1 = (Raise e, w2) -> status_code e <> 503%Z) /\
  (forall b w1 e w2,
     analyze_batch_sentiment env' b w1 = (Raise e, w2) ->
     status_code e <> 503%Z) /\
  Root.sentiment (root env') = true /\
  (forall w1, exists h w2,
     health_check env' w1 = (Return h, w2) /\
     Health.sentiment_loaded h = true).
Proof.
  rewrite load_models_run. intros H.
  assert (Hl : sentiment_pipeline env' <> None).
  { destruct (load_sentiment hub) as [sp|e|b];
      [|discriminate H | discriminate H].
    destruct (load_emotion hub); inversion H; subst; discriminate. }
  split; [|split; [|split]].
  - intros i w1 e w2. apply loaded_single_not_503. exact Hl.
  - intros b w1 e w2. apply loaded_batch_not_503. exact Hl.
  - unfold root. simpl.
    destruct (sentiment_pipeline env'); [reflexivity | congruence].
  - intros w1. unfold health_check, bind, now, ret. cbn.
    eexists; eexists. split; [reflexivity|]. cbn.
    destruct (sentiment_pipeline env'); [reflexivity | congruence].
Qed.

(** X3. When the secondary model failed to load at start-up, the service
    that start-up leaves answers every request without emotions, and its
    health check reports emotion_loaded = false beside
    sentiment_loaded = true. *)
Theorem started_without_emotion hub env w env' w' e :
  load_emotion hub = Raise e ->
  load_models hub env w = (Return env', w') ->
  (forall i w1 sr w2,
     analyze_sentiment env' i w1 = (Return sr, w2) ->
     SentimentResult.emotions sr = None) /\
  (forall b w1 br w2,
     analyze_batch_sentiment env' b w1 = (Return br, w2) ->
     Forall (fun sr => SentimentResult.emotions sr = None)
            (BatchSentimentResult.results br)) /\
  (forall w1, exists h w2,
     health_check env' w1 = (Return h, w2) /\
     Health.emotion_loaded h = false /\
     Health.sentiment_loaded h = true).
Proof.
  rewrite load_models_run. intros He H. rewrite He in H.
  destruct (load_sentiment hub) as [sp|e0|b0];
    [|discriminate H | discriminate H].
  inversion H; subst. clear H.
  set (env' := mkEnv (Some sp) None (cuda_is_available env)
                 (cuda_device_count env)).
  assert (Hemo : forall t, emotions_of env' t = None) by reflexivity.
  split; [|split].
  - intros i w1 sr w2 H.
    apply analyze_sentiment_returns_inv in H. destruct H as (_ & _ & H).
    apply analyze_single_text_returns_inv in H.
    destruct H as (_ & -> & _). apply Hemo.
  - intros b w1 br w2 H.
    apply analyze_batch_returns_inv in H.
    destruct H as (_ & _ & _ & Hall & _).
    induction Hall as [|t sr ts srs (_ & wa & wb & Hrun) _ IH];
      constructor; [|exact IH].
    apply analyze_single_text_returns_inv in Hrun.
    destruct Hrun as (_ & -> & _). apply Hemo.
  - intros w1. eexists; eexists. split; [reflexivity|].
    split; reflexivity.
Qed.

(** X4. GET /health always answers, whatever was loaded: it takes one
    clock reading, which is its timestamp, and logs nothing. It agrees with
    GET / on which models are loaded and on the device: "cuda" exactly when
    cuda_available, and a device_count of 0 when it is not. *)
Theorem health_check_agrees_with_root env w :
  exists h,
    health_check env w =
      (Return h, mkWorld (clock w) (S (reads w)) (trace w)) /\
    Health.timestamp h = clock w (reads w) /\
    Health.sentiment_loaded h = Root.sentiment (root env) /\
    Health.emotion_loaded h = Root.emotion (root env) /\
    (Health.cuda_available h = true <-> Root.device (root env) = lit "cuda") /\
    (Health.cuda_available h = false ->
       Health.device_count h = 0%Z /\ Root.device (root env) = lit "cpu").
Proof.
  eexists. split; [reflexivity|]. cbn.
  repeat split; try reflexivity; destruct (cuda_is_available env);
    try reflexivity; try discriminate.
Qed.

(** ** Time *)

Lemma monotone_le (c : nat -> datetime) :
  monotone c -> forall n m, (n <= m)%nat -> (c n <= c m)%Z.
Proof.
  intros Hc n m Hnm. induction Hnm as [|m _ IH]; [lia|].
  specialize (Hc m). lia.
Qed.

(** The loop reads the clock twice per result and never touches the clock
    itself; under a clock that is never set back no result's time is
    negative, and none exceeds the span from the loop's first reading to
    its last. *)
Lemma for_text_in_times env texts : forall acc w rs w',
  for_text_in env texts acc w = (Return rs, w') ->
  exists new,
    rs = acc ++ new /\
    clock w' = clock w /\
    reads w' = (reads w + 2 * List.length new)%nat /\
    (monotone (clock w) ->
       Forall (fun sr =>
                 (0 <= SentimentResult.processing_time sr
                  <= clock w (reads w') - clock w (reads w))%Z) new).
Proof.
  induction texts as [|t texts IH]; intros acc w rs w' H; simpl in H.
  - inversion H; subst. exists []. rewrite app_nil_r.
    repeat split; [simpl; lia | constructor].
  - rewrite truthy_strip in H. destruct (blank t); simpl in H;
      [apply IH; exact H|].
    unfold bind in H.
    destruct (single_outcome env t) as [r|c|b] eqn:Ep.
    + rewrite (analyze_single_text_returns _ _ w _ Ep) in H.
      apply IH in H. destruct H as (new & -> & Hc & Hr & Hm).
      cbn [clock reads] in Hc, Hr, Hm.
      eexists (_ :: new). rewrite <- app_assoc.
      split; [reflexivity|]. split; [exact Hc|].
      split; [simpl; lia|]. intros Hmono.
      pose proof (Hmono (reads w)) as H0.
      pose proof (Hmono (S (reads w))) as H1.
      pose proof (monotone_le (clock w) Hmono (S (S (reads w))) (reads w')
                    ltac:(lia)) as H2.
      constructor; [cbn [SentimentResult.processing_time]; lia|].
      specialize (Hm Hmono). revert Hm. apply Forall_impl.
      intros sr Hsr. lia.
    + rewrite (analyze_single_text_raises _ _ w _ Ep) in H. discriminate H.
    + rewrite (analyze_single_text_uncaught _ _ w _ Ep) in H. discriminate H.
Qed.

(** X5. A returned batch has read the clock twice per result and twice
    more; its total_processing_time spans from the first to the last of
    these readings. With a clock that is never set back, no processing
    time in the response is negative, and no result took longer than the
    batch as a whole. *)
Theorem batch_processing_times env b w br w' :
  analyze_batch_sentiment env b w = (Return br, w') ->
  reads w' =
    (reads w + 2 + 2 * List.length (BatchSentimentResult.results br))%nat /\
  BatchSentimentResult.total_processing_time br =
    (clock w (pred (reads w')) - clock w (reads w))%Z /\
  (monotone (clock w) ->
     Forall (fun sr =>
               (0 <= SentimentResult.processing_time sr
                <= BatchSentimentResult.total_processing_time br)%Z)
            (BatchSentimentResult.results br) /\
     (0 <= BatchSentimentResult.total_processing_time br)%Z).
Proof.
  intros H. pose proof (analyze_batch_returns_inv _ _ _ _ _ H) as (Hl & Hn & _).
  rewrite (analyze_batch_accepted _ _ w Hl Hn) in H.
  match type of H with context [for_text_in env ?l ?a ?v] =>
    destruct (for_text_in env l a v) as [[rs|e|b0] w1] eqn:R end;
    [|discriminate H | discriminate H].
  apply for_text_in_times in R. destruct R as (new & Hrs & Hc & Hr & Hm).
  simpl in Hrs. subst rs. cbn [clock reads] in Hc, Hr, Hm.
  assert (Hbr : br = BatchSentimentResult.make new
                       (clock w1 (reads w1) - clock w (reads w))%Z)
    by congruence.
  assert (Hw : reads w' = S (reads w1)) by (inversion H; reflexivity).
  subst br. cbn [BatchSentimentResult.results
    BatchSentimentResult.total_processing_time].
  rewrite Hw, Hc, Hr. cbn [pred].
  split; [lia|]. split; [reflexivity|]. intros Hmono.
  specialize (Hm Hmono). rewrite Hr in Hm.
  pose proof (Hmono (reads w)) as H0.
  pose proof (monotone_le (clock w) Hmono (S (reads w))
                (S (reads w) + 2 * List.length new)%nat ltac:(lia)) as H1.
  split; [|lia].
  revert Hm. apply Forall_impl. intros sr Hsr. lia.
Qed.

(** ** What a request leaves behind *)

(** X6. A request that is refused, with a 400 or a 503, leaves the world
    as it found it: no model was called, nothing was logged, the clock was
    not read. Any other error of the two endpoints is a 500. *)
Theorem refused_requests_leave_no_trace env :
  (forall i w e w',
     analyze_sentiment env i w = (Raise e, w') ->
     status_code e = 500%Z \/
     (w' = w /\ (status_code e = 400%Z \/ status_code e = 503%Z))) /\
  (forall b w e w',
     analyze_batch_sentiment env b w = (Raise e, w') ->
     status_code e = 500%Z \/
     (w' = w /\ (status_code e = 400%Z \/ status_code e = 503%Z))).
Proof.
  split.
  - intros i w e w' H.
    destruct (sentiment_pipeline env) as [p|] eqn:Ep.
    + assert (Hl : sentiment_pipeline env <> None) by congruence.
      rewrite (analyze_sentiment_loaded _ _ w Hl) in H.
      destruct (blank (TextInput.text i)).
      * inversion H; subst. right. split; [reflexivity | left; reflexivity].
      * left. apply (analyze_single_text_status _ _ _ _ _ H).
    + rewrite (analyze_sentiment_unloaded _ _ _ Ep) in H. inversion H; subst.
      right. split; [reflexivity | right; reflexivity].
  - intros b w e w' H.
    destruct (sentiment_pipeline env) as [p|] eqn:Ep.
    + assert (Hl : sentiment_pipeline env <> None) by congruence.
      destruct (batch_size_cases b) as [He|[Hgt|Hn]].
      * rewrite (analyze_batch_empty _ _ w Hl He) in H. inversion H; subst.
        right. split; [reflexivity | left; reflexivity].
      * rewrite (analyze_batch_too_long _ _ w Hl Hgt) in H.
        inversion H; subst.
        right. split; [reflexivity | left; reflexivity].
      * left. apply (analyze_batch_accepted_status _ _ _ _ _ Hl Hn H).
    + rewrite (analyze_batch_unloaded _ _ _ Ep) in H. inversion H; subst.
      right. split; [reflexivity | right; reflexivity].
Qed.

Lemma single_events_failed env t c :
  single_outcome env t = Raise c ->
  exists evs,
    single_events env t =
      evs ++ [LogError (lit "Error analyzing text: " ++ c)] /\
    emotion_args evs = [].
Proof.
  intros H. apply single_outcome_raises in H.
  unfold single_events. rewrite H.
  destruct (is_not_None (sentiment_pipeline env));
    eexists; split; reflexivity.
Qed.

Lemma processed_failed env texts t c :
  first_failure env texts = Some (t, Failed c) ->
  exists evs,
    flat_map (single_events env) (processed env texts) =
      evs ++ [LogError (lit "Error analyzing text: " ++ c)].
Proof.
  induction texts as [|x texts IH]; simpl; [discriminate|].
  destruct (blank x); [exact IH|].
  destruct (single_outcome env x) as [r|c'|b'] eqn:Ep.
  - intros H. destruct (IH H) as (evs & Hevs). simpl. rewrite Hevs.
    eexists. rewrite app_assoc. reflexivity.
  - intros H. inversion H; subst. simpl. rewrite app_nil_r.
    destruct (single_events_failed env t c Ep) as (evs & Hevs & _).
    eauto.
  - discriminate.
Qed.

Lemma analyze_batch_trace env b w :
  trace (snd (analyze_batch_sentiment env b w)) =
  trace w ++
  if is_not_None (sentiment_pipeline env)
     && negb (Nat.eqb (List.length (BatchTextInput.texts b)) 0)
     && Nat.leb (List.length (BatchTextInput.texts b)) 100
  then flat_map (single_events env) (processed env (BatchTextInput.texts b))
  else [].
Proof.
  destruct (sentiment_pipeline env) as [p|] eqn:Ep.
  - assert (Hl : sentiment_pipeline env <> None) by congruence.
    destruct (batch_size_cases b) as [He|[Hgt|Hn]].
    + rewrite (analyze_batch_empty _ _ w Hl He), He. simpl.
      rewrite app_nil_r. reflexivity.
    + rewrite (analyze_batch_too_long _ _ w Hl Hgt).
      destruct (Nat.leb_spec (List.length (BatchTextInput.texts b)) 100);
        [lia|].
      rewrite andb_false_r. simpl. rewrite app_nil_r. reflexivity.
    + rewrite (analyze_batch_accepted _ _ w Hl Hn).
      destruct (Nat.leb_spec (List.length (BatchTextInput.texts b)) 100);
        [|lia].
      destruct (Nat.eqb_spec (List.length (BatchTextInput.texts b)) 0);
        [lia|].
      cbn [is_not_None negb andb].
      match goal with |- context [for_text_in env ?l ?a ?v] =>
        pose proof (for_text_in_trace env l a v) as T;
        destruct (for_text_in env l a v) as [[rs|e|b0] w1] end;
        exact T.
  - rewrite (analyze_batch_unloaded _ _ _ Ep). simpl.
    rewrite app_nil_r. reflexivity.
Qed.

(** X7. Every 500 is logged: when a request to either endpoint fails with
    a 500, its detail is "Analysis failed: " followed by the cause, and the
    last thing done before answering was to log
    "Error analyzing text: " followed by the same cause. *)
Theorem server_errors_are_logged env :
  (forall i w e w',
     analyze_sentiment env i w = (Raise e, w') ->
     status_code e = 500%Z ->
     exists cause evs,
       e = mkHTTPException 500 (lit "Analysis failed: " ++ cause) /\
       trace w' =
         trace w ++ evs ++ [LogError (lit "Error analyzing text: " ++ cause)]) /\
  (forall b w e w',
     analyze_batch_sentiment env b w = (Raise e, w') ->
     status_code e = 500%Z ->
     exists cause evs,
       e = mkHTTPException 500 (lit "Analysis failed: " ++ cause) /\
       trace w' =
         trace w ++ evs ++ [LogError (lit "Error analyzing text: " ++ cause)]).
Proof.
  split.
  - intros i w e w' H Hs.
    destruct (sentiment_pipeline env) as [p|] eqn:Ep;
      [|rewrite (analyze_sentiment_unloaded _ _ _ Ep) in H;
        inversion H; subst; discriminate Hs].
    assert (Hl : sentiment_pipeline env <> None) by congruence.
    rewrite (analyze_sentiment_loaded _ _ w Hl) in H.
    destruct (blank (TextInput.text i));
      [inversion H; subst; discriminate Hs|].
    destruct (single_outcome env (TextInput.text i)) as [r|c|b] eqn:Ef.
    + rewrite (analyze_single_text_returns _ _ w _ Ef) in H. discriminate H.
    + rewrite (analyze_single_text_raises _ _ w _ Ef) in H.
      inversion H; subst. cbn [trace].
      destruct (single_events_failed env _ c Ef) as (evs & -> & _).
      exists c, evs. split; reflexivity.
    + rewrite (analyze_single_text_uncaught _ _ w _ Ef) in H.
      discriminate H.
  - intros b w e w' H Hs.
    pose proof (analyze_batch_trace env b w) as T. rewrite H in T.
    cbn [snd] in T.
    destruct (sentiment_pipeline env) as [p|] eqn:Ep;
      [|rewrite (analyze_batch_unloaded _ _ _ Ep) in H;
        inversion H; subst; discriminate Hs].
    assert (Hl : sentiment_pipeline env <> None) by congruence.
    destruct (batch_size_cases b) as [He|[Hgt|Hn]].
    + rewrite (analyze_batch_empty _ _ w Hl He) in H.
      inversion H; subst; discriminate Hs.
    + rewrite (analyze_batch_too_long _ _ w Hl Hgt) in H.
      inversion H; subst; discriminate Hs.
    + destruct (Nat.leb_spec (List.length (BatchTextInput.texts b)) 100);
        [|lia].
      destruct (Nat.eqb_spec (List.length (BatchTextInput.texts b)) 0);
        [lia|].
      cbn [is_not_None negb andb] in T.
      rewrite (analyze_batch_accepted _ _ w Hl Hn) in H.
      match type of H with context [for_text_in env ?l ?a ?v] =>
        destruct (for_text_in env l a v) as [[rs|e1|b1] w1] eqn:R end;
        [discriminate H| |discriminate H].
      inversion H; subst.
      apply for_text_in_raises in R. destruct R as (t & cause & Hff & ->).
      destruct (processed_failed env _ t cause Hff) as (evs & Hevs).
      rewrite Hevs in T. exists cause, evs. split; [reflexivity | exact T].
Qed.





(** ** What a result holds *)

(** X9. Of the primary model's output only the first prediction counts:
    two models that agree on it, whatever follows it in their outputs, give
    the same response and leave the same world. *)
Theorem only_first_prediction_counts p p' emo c d text w r rest rest' :
  p text = Return (r :: rest) ->
  p' text = Return (r :: rest') ->
  analyze_single_text (mkEnv (Some p) emo c d) text w =
  analyze_single_text (mkEnv (Some p') emo c d) text w.
Proof.
  intros Hp Hp'.
  assert (Hso : single_outcome (mkEnv (Some p) emo c d) text =
                single_outcome (mkEnv (Some p') emo c d) text)
    by (unfold single_outcome, first_prediction;
        cbn [sentiment_pipeline emotion_pipeline];
        rewrite Hp, Hp'; reflexivity).
  assert (Hev : single_events (mkEnv (Some p) emo c d) text =
                single_events (mkEnv (Some p') emo c d) text)
    by (unfold single_events, first_prediction, emotion_events;
        cbn [sentiment_pipeline emotion_pipeline is_not_None];
        rewrite Hp, Hp'; reflexivity).
  destruct (single_outcome (mkEnv (Some p') emo c d) text) as [r0|e0|b0]
    eqn:E2.
  - rewrite (analyze_single_text_returns _ _ w _ Hso),
            (analyze_single_text_returns _ _ w _ E2), Hev. reflexivity.
  - rewrite (analyze_single_text_raises _ _ w _ Hso),
            (analyze_single_text_raises _ _ w _ E2), Hev. reflexivity.
  - rewrite (analyze_single_text_uncaught _ _ w _ Hso),
            (analyze_single_text_uncaught _ _ w _ E2), Hev. reflexivity.
Qed.

(** X10. A primary model that returns an empty list of predictions makes
    the request fail with a 500 whose detail reports the index error; the
    clock has been read once, the error is logged, and the secondary model
    is not run. *)
Theorem empty_output_is_500 env p text w :
  sentiment_pipeline env = Some p ->
  p text = Return [] ->
  analyze_single_text env text w =
    (Raise (mkHTTPException 500
              (lit "Analysis failed: list index out of range")),
     mkWorld (clock w) (S (reads w))
       (trace w ++
        [SentimentCall text;
         LogError (lit "Error analyzing text: list index out of range")])).
Proof.
  intros Hp Hr.
  assert (Hf : first_prediction env text =
               Raise (lit "list index out of range"))
    by (unfold first_prediction; rewrite Hp, Hr; reflexivity).
  rewrite (analyze_single_text_raises _ _ w _
             (proj2 (single_outcome_raises _ _ _) Hf)).
  unfold single_events. rewrite Hf, Hp. reflexivity.
Qed.

(** X11. A batch of one text that is not skipped answers as the single
    endpoint does on that text: the same error, the same [BaseException]
    going up, or one result with the same text, sentiment, confidence,
    score and emotions. *)
Theorem batch_of_one_matches_single env t w w2 :
  sentiment_pipeline env <> None ->
  forallb isspace t = false ->
  match fst (analyze_sentiment env (TextInput.make t) w),
        fst (analyze_batch_sentiment env (BatchTextInput.make [t]) w2) with
  | Return sr, Return br =>
      exists sr', BatchSentimentResult.results br = [sr'] /\
                  content sr' = content sr
  | Raise e, Raise e' => e = e'
  | Uncaught b, Uncaught b' => b = b'
  | _, _ => False
  end.
Proof.
  intros Hl Hb. rewrite <- blank_spec in Hb.
  rewrite (analyze_sentiment_loaded _ _ w Hl).
  rewrite (analyze_batch_accepted _ _ w2 Hl) by (simpl; lia).
  cbn [TextInput.text BatchTextInput.texts for_text_in].
  rewrite truthy_strip, Hb. cbn [negb]. unfold bind.
  destruct (single_outcome env t) as [r|c|b] eqn:Ef.
  - rewrite !(analyze_single_text_returns _ _ _ _ Ef). cbn.
    eexists. split; reflexivity.
  - rewrite !(analyze_single_text_raises _ _ _ _ Ef). reflexivity.
  - rewrite !(analyze_single_text_uncaught _ _ _ _ Ef). reflexivity.
Qed.

Lemma first_occurrences_In (l : list str) (x : str) :
  In x (first_occurrences l) -> In x l.
Proof.
  induction l as [|y l IH]; simpl; [tauto|].
  intros [H|H]; [left; exact H|].
  apply filter_In in H. right. apply IH. tauto.
Qed.

Lemma first_occurrences_NoDup (l : list str) : NoDup (first_occurrences l).
Proof.
  induction l as [|x l IH]; simpl; constructor.
  - intros H. apply filter_In in H. destruct H as [_ H].
    rewrite str_eqb_refl in H. discriminate H.
  - apply NoDup_filter. exact IH.
Qed.

Lemma first_occurrences_length (l : list str) :
  (List.length (first_occurrences l) <= List.length l)%nat.
Proof.
  induction l as [|x l IH]; simpl; [lia|].
  pose proof (filter_length_le (fun y => negb (str_eqb x y))
                (first_occurrences l)). lia.
Qed.

Lemma last_score_some (k : str) (rs : list Prediction) (v : float) :
  last_score k rs = Some v ->
  exists r, In r rs /\ label r = k /\ pred_score r = v.
Proof.
  induction rs as [|r rs IH]; simpl; [discriminate|].
  destruct (last_score k rs) as [v'|].
  - intros H. destruct (IH H) as (r' & Hin & Hk & Hv). eauto.
  - destruct (str_eqb (label r) k) eqn:E; [|discriminate].
    intros H. inversion H; subst. apply str_eqb_eq in E. eauto.
Qed.

(** X12. The emotions of a result, when there are any, hold at most three
    entries under pairwise distinct labels, and every entry is the label
    and score of one of the first three predictions of the secondary
    model, which was loaded and did not raise. *)
Theorem emotions_at_most_three env text w sr w' d :
  analyze_single_text env text w = (Return sr, w') ->
  SentimentResult.emotions sr = Some d ->
  (List.length d <= 3)%nat /\
  NoDup (dict_keys d) /\
  exists q rs,
    emotion_pipeline env = Some q /\ q text = Return rs /\
    (forall k v, dict_get d k = Some v ->
       exists r, In r (firstn 3 rs) /\ label r = k /\ pred_score r = v).
Proof.
  intros H Hd. apply analyze_single_text_returns_inv in H.
  destruct H as (_ & He & _). rewrite He in Hd. unfold emotions_of in Hd.
  destruct (emotion_pipeline env) as [q|]; [|discriminate Hd].
  destruct (q text) as [rs|e|b] eqn:Eq; [|discriminate Hd..].
  assert (Hd' : d = dict_comprehension (firstn 3 rs)) by congruence.
  subst d. clear Hd.
  split; [|split].
  - assert (Hk : List.length (dict_comprehension (firstn 3 rs)) =
                 List.length (dict_keys (dict_comprehension (firstn 3 rs))))
      by (unfold dict_keys; rewrite length_map; reflexivity).
    rewrite Hk, dict_comprehension_keys.
    pose proof (first_occurrences_length (map label (firstn 3 rs))) as H1.
    rewrite length_map in H1.
    pose proof (firstn_le_length 3 rs) as H2. lia.
  - rewrite dict_comprehension_keys. apply first_occurrences_NoDup.
  - exists q, rs. split; [reflexivity|]. split; [exact Eq|].
    intros k v. rewrite dict_comprehension_get. apply last_score_some.
Qed.

(** X13. A secondary model that raises an [Exception] on a text leaves in
    the response nothing that tells it from an absent one: the outcome is
    the same, field for field, and so is the number of clock readings. *)
Theorem failing_emotion_like_absent sp q c d text w e :
  q text = Raise e ->
  fst (analyze_single_text (mkEnv sp (Some q) c d) text w) =
  fst (analyze_single_text (mkEnv sp None c d) text w) /\
  reads (snd (analyze_single_text (mkEnv sp (Some q) c d) text w)) =
  reads (snd (analyze_single_text (mkEnv sp None c d) text w)).
Proof.
  intros Hq.
  assert (Hso : single_outcome (mkEnv sp (Some q) c d) text =
                single_outcome (mkEnv sp None c d) text).
  { unfold single_outcome.
    change (first_prediction (mkEnv sp (Some q) c d) text)
      with (first_prediction (mkEnv sp None c d) text).
    cbn [emotion_pipeline]. rewrite Hq. reflexivity. }
  destruct (single_outcome (mkEnv sp None c d) text) as [r|x|b] eqn:Ef.
  - rewrite (analyze_single_text_returns _ _ w _ Hso),
            (analyze_single_text_returns _ _ w _ Ef).
    unfold emotions_of. cbn [emotion_pipeline fst snd reads]. rewrite Hq.
    split; reflexivity.
  - rewrite (analyze_single_text_raises _ _ w _ Hso),
            (analyze_single_text_raises _ _ w _ Ef).
    split; reflexivity.
  - rewrite (analyze_single_text_uncaught _ _ w _ Hso),
            (analyze_single_text_uncaught _ _ w _ Ef).
    split; reflexivity.
Qed.

(** X14. Every result the service returns carries one of the three
    sentiments "positive", "negative" and "neutral", and its score follows
    from it: the confidence, its opposite, or 0.0. *)
Theorem results_are_three_way env :
  (forall i w sr w',
     analyze_sentiment env i w = (Return sr, w') ->
     (SentimentResult.sentiment sr = lit "positive" /\
      SentimentResult.score sr = SentimentResult.confidence sr) \/
     (SentimentResult.sentiment sr = lit "negative" /\
      SentimentResult.score sr =
        PrimFloat.opp (SentimentResult.confidence sr)) \/
     (SentimentResult.sentiment sr = lit "neutral" /\
      SentimentResult.score sr = 0%float)) /\
  (forall b w br w',
     analyze_batch_sentiment env b w = (Return br, w') ->
     Forall (fun sr =>
               (SentimentResult.sentiment sr = lit "positive" /\
                SentimentResult.score sr = SentimentResult.confidence sr) \/
               (SentimentResult.sentiment sr = lit "negative" /\
                SentimentResult.score sr =
                  PrimFloat.opp (SentimentResult.confidence sr)) \/
               (SentimentResult.sentiment sr = lit "neutral" /\
                SentimentResult.score sr = 0%float))
            (BatchSentimentResult.results br)).
Proof.
  assert (Hone : forall t w sr w',
            analyze_single_text env t w = (Return sr, w') ->
            (SentimentResult.sentiment sr = lit "positive" /\
             SentimentResult.score sr = SentimentResult.confidence sr) \/
            (SentimentResult.sentiment sr = lit "negative" /\
             SentimentResult.score sr =
               PrimFloat.opp (SentimentResult.confidence sr)) \/
            (SentimentResult.sentiment sr = lit "neutral" /\
             SentimentResult.score sr = 0%float)).
  { intros t w sr w' H.
    destruct (single_outcome env t) as [r|c|b] eqn:Ef.
    - rewrite (analyze_single_text_returns _ _ w _ Ef) in H.
      inversion H; subst. cbn. unfold normalized.
      destruct (str_in (lower (label r)) [lit "positive"; lit "pos"]);
        [left; split; reflexivity|].
      destruct (str_in (lower (label r)) [lit "negative"; lit "neg"]);
        [right; left | right; right]; split; reflexivity.
    - rewrite (analyze_single_text_raises _ _ w _ Ef) in H. discriminate H.
    - rewrite (analyze_single_text_uncaught _ _ w _ Ef) in H.
      discriminate H. }
  split.
  - intros i w sr w' H. apply analyze_sentiment_returns_inv in H.
    destruct H as (_ & _ & H). apply (Hone _ _ _ _ H).
  - intros b w br w' H. apply analyze_batch_returns_inv in H.
    destruct H as (_ & _ & _ & Hall & _).
    induction Hall as [|t sr ts srs (_ & wa & wb & Hrun) _ IH];
      constructor; [apply (Hone _ _ _ _ Hrun) | exact IH].
Qed.

(** ** The range of the score *)

(** On the specification side of the floats: a value between zero and a
    positive finite [one] lies, with its opposite, between [one]'s opposite
    and [one]. *)
Lemma SFleb_opp_range (m1 : positive) (e1 : Z) (s : spec_float) :
  SFleb (S754_zero false) s = true ->
  SFleb s (S754_finite false m1 e1) = true ->
  SFleb (S754_finite true m1 e1) s = true /\
  SFleb (S754_finite true m1 e1) (SFopp s) = true /\
  SFleb (SFopp s) (S754_finite false m1 e1) = true.
Proof.
  unfold SFleb, SFcompare, SFopp.
  destruct s as [b|b| |b m e].
  - intros _ _. destruct b; repeat split; reflexivity.
  - destruct b; intros H1 H2; discriminate.
  - intros H1; discriminate H1.
  - destruct b; [intros H1; discriminate H1|]. intros _ H2.
    cbn [negb]. split; [reflexivity|]. split; [|reflexivity].
    rewrite (Z.compare_antisym e e1).
    change (Pos.compare_cont Eq m1 m) with (Pos.compare m1 m).
    change (Pos.compare_cont Eq m m1) with (Pos.compare m m1) in H2.
    rewrite (Pos.compare_antisym m m1).
    destruct (e ?= e1)%Z; cbn [CompOpp] in *;
      [|reflexivity | discriminate H2].
    destruct (Pos.compare m m1); cbn [CompOpp] in *;
      [reflexivity | reflexivity | discriminate H2].
Qed.

Lemma float_opp_range (c : float) :
  (0 <=? c)%float = true ->
  (c <=? 1)%float = true ->
  (-1 <=? c)%float = true /\
  (-1 <=? - c)%float = true /\
  (- c <=? 1)%float = true.
Proof.
  rewrite !leb_spec, !opp_spec.
  assert (H0 : Prim2SF 0 = S754_zero false) by (vm_compute; reflexivity).
  assert (H1 : Prim2SF 1 = S754_finite false 4503599627370496 (-52))
    by (vm_compute; reflexivity).
  rewrite H0, H1. cbn [SFopp negb]. apply SFleb_opp_range.
Qed.

(** X15. The score is on the scale from -1 to 1 whenever the primary
    model's confidence is a probability: if the confidence of a result is
    between 0 and 1, its score is between -1 and 1 (comparisons of IEEE
    floats, so a NaN confidence is excluded by the hypothesis). *)
Theorem score_between_minus_one_and_one env text w sr w' :
  analyze_single_text env text w = (Return sr, w') ->
  (0 <=? SentimentResult.confidence sr)%float = true ->
  (SentimentResult.confidence sr <=? 1)%float = true ->
  (-1 <=? SentimentResult.score sr)%float = true /\
  (SentimentResult.score sr <=? 1)%float = true.
Proof.
  intros H.
  destruct (single_outcome env text) as [r|c|b] eqn:Ef;
    [|rewrite (analyze_single_text_raises _ _ w _ Ef) in H; discriminate H
     |rewrite (analyze_single_text_uncaught _ _ w _ Ef) in H;
      discriminate H].
  - rewrite (analyze_single_text_returns _ _ w _ Ef) in H.
    assert (Hc : SentimentResult.confidence sr = pred_score r)
      by (inversion H; reflexivity).
    assert (Hs : SentimentResult.score sr = snd (normalized r))
      by (inversion H; reflexivity).
    rewrite Hc, Hs. clear H Hc Hs. intros H0 H1.
    destruct (float_opp_range (pred_score r) H0 H1) as (Ha & Hb & Hd).
    unfold normalized.
    destruct (str_in (lower (label r)) [lit "positive"; lit "pos"]);
      [cbn [snd]; split; assumption|].
    destruct (str_in (lower (label r)) [lit "negative"; lit "neg"]);
      cbn [snd]; [split; assumption|].
    split; vm_compute; reflexivity.
Qed.

(** X16. A single request that is answered has read the clock twice, its
    processing_time being the second reading less the first, so
    non-negative under a clock that is never set back; one that fails with
    a 500 has read it once, and a refused one not at all. *)
Theorem single_request_clock env i w :
  (forall sr w',
     analyze_sentiment env i w = (Return sr, w') ->
     reads w' = S (S (reads w)) /\
     SentimentResult.processing_time sr =
       (clock w (S (reads w)) - clock w (reads w))%Z /\
     (monotone (clock w) -> (0 <= SentimentResult.processing_time sr)%Z)) /\
  (forall e w',
     analyze_sentiment env i w = (Raise e, w') ->
     reads w' = if (status_code e =? 500)%Z then S (reads w) else reads w).
Proof.
  split.
  - intros sr w' H. apply analyze_sentiment_returns_inv in H.
    destruct H as (_ & _ & H).
    destruct (single_outcome env (TextInput.text i)) as [r|c|b] eqn:Ef.
    + rewrite (analyze_single_text_returns _ _ w _ Ef) in H.
      inversion H; subst. cbn.
      split; [reflexivity|]. split; [reflexivity|].
      intros Hm. specialize (Hm (reads w)). lia.
    + rewrite (analyze_single_text_raises _ _ w _ Ef) in H. discriminate H.
    + rewrite (analyze_single_text_uncaught _ _ w _ Ef) in H.
      discriminate H.
  - intros e w' H.
    destruct (sentiment_pipeline env) as [p|] eqn:Ep;
      [|rewrite (analyze_sentiment_unloaded _ _ _ Ep) in H;
        inversion H; subst; reflexivity].
    assert (Hl : sentiment_pipeline env <> None) by congruence.
    rewrite (analyze_sentiment_loaded _ _ w Hl) in H.
    destruct (blank (TextInput.text i)); [inversion H; subst; reflexivity|].
    destruct (single_outcome env (TextInput.text i)) as [r|c|b] eqn:Ef.
    + rewrite (analyze_single_text_returns _ _ w _ Ef) in H. discriminate H.
    + rewrite (analyze_single_text_raises _ _ w _ Ef) in H.
      inversion H; subst. reflexivity.
    + rewrite (analyze_single_text_uncaught _ _ w _ Ef) in H.
      discriminate H.
Qed.

End Service.

(** ** Concrete runs *)

(** The labels of the spec's examples, on the lists they belong to. *)
Example label_POS :
  ci_member (fun s => s) (lit "POS") [lit "positive"; lit "pos"].
Proof. exists (lit "pos"). split; [right; left|]; reflexivity. Qed.

Example label_Positive :
  ci_member (fun s => s) (lit "Positive") [lit "positive"; lit "pos"].
Proof. exists (lit "positive"). split; [left|]; reflexivity. Qed.

Example label_NEG :
  ci_member (fun s => s) (lit "NEG") [lit "negative"; lit "neg"].
Proof. exists (lit "neg"). split; [right; left|]; reflexivity. Qed.

Example label_LABEL_1 :
  normalized (fun s => s) (mkPrediction (lit "LABEL_1") 0.25%float)
  = (lit "neutral", 0%float).
Proof. reflexivity. Qed.

(** One real text between two whitespace-only ones: one result, for the
    real text. *)
Example batch_one_real_text :
  map SentimentResult.text
    match fst (analyze_batch_sentiment (fun s => s) env_full
                 (BatchTextInput.make [lit "  "; lit "great news"; lit ""])
                 w0) with
    | Return br => BatchSentimentResult.results br
    | Raise _ | Uncaught _ => []
    end
  = [lit "great news"].
Proof. reflexivity. Qed.

Lemma C1_label_normalization_witness :
  exists sr w',
    analyze_single_text (fun s => s) env_full (lit "great news") w0
      = (Return sr, w') /\
    SentimentResult.sentiment sr = lit "positive" /\
    SentimentResult.score sr = 0.75%float.
Proof.
  destruct (C1_label_normalization (fun s => s) env_full (lit "great news")
              w0 demo_sentiment (mkPrediction (lit "POSITIVE") 0.75%float) []
              eq_refl eq_refl)
    as [(sr & w' & Hrun & _ & Hpos & _)|(q & b & w' & Hq & Hb & _)].
  - exists sr, w'. split; [exact Hrun|].
    apply Hpos. exists (lit "positive"). split; [left|]; reflexivity.
  - assert (Hq' : q = demo_emotion) by (inversion Hq; reflexivity).
    subst q. discriminate Hb.
Defined.

Lemma C7_model_unavailable_503_witness :
  analyze_sentiment (fun s => s) env_unloaded (TextInput.make (lit "fine")) w0
    = (Raise (mkHTTPException 503 (lit "Sentiment model not loaded")), w0) /\
  analyze_batch_sentiment (fun s => s) env_unloaded
    (BatchTextInput.make [lit "fine"]) w0
    = (Raise (mkHTTPException 503 (lit "Sentiment model not loaded")), w0) /\
  exists e w',
    analyze_sentiment (fun s => s) env_full (TextInput.make (lit " ")) w0
      = (Raise e, w') /\ status_code e <> 503%Z.
Proof.
  split; [|split].
  - apply (proj1 (C7_model_unavailable_503 (fun s => s) env_unloaded w0)
             eq_refl).
  - apply (proj1 (C7_model_unavailable_503 (fun s => s) env_unloaded w0)
             eq_refl).
  - eexists; eexists. split; [reflexivity|].
    apply (proj1 (proj2 (proj2 (C7_model_unavailable_503 (fun s => s)
                                  env_full w0))
                    ltac:(discriminate))
             (TextInput.make (lit " ")) _ w0).
    reflexivity.
Defined.

Lemma C9_availability_before_validation_witness :
  exists e,
    analyze_sentiment (fun s => s) env_unloaded (TextInput.make (lit "   ")) w0
      = (Raise e, w0) /\ status_code e = 503%Z /\ status_code e <> 400%Z.
Proof.
  apply (proj1 (C9_availability_before_validation (fun s => s) env_unloaded w0
                  eq_refl) (TextInput.make (lit "   "))).
  reflexivity.
Defined.

(** The claim C3 as it stands fails when the primary model is not loaded:
    the whitespace-only request is answered 503, not 400. *)
Lemma C3_counterexample :
  forallb isspace (lit "   ") = true /\
  analyze_sentiment (fun s => s) env_unloaded (TextInput.make (lit "   ")) w0
    = (Raise (mkHTTPException 503 (lit "Sentiment model not loaded")), w0) /\
  ~ (exists d w',
       analyze_sentiment (fun s => s) env_unloaded
         (TextInput.make (lit "   ")) w0
       = (Raise (mkHTTPException 400 d), w')).
Proof.
  split; [reflexivity|]. split; [reflexivity|].
  intros (d & w' & H). discriminate H.
Qed.

Lemma C3_blank_text_rejected_witness :
  analyze_sentiment (fun s => s) env_full (TextInput.make (lit "   ")) w0
    = (Raise (mkHTTPException 400 (lit "Text cannot be empty")), w0).
Proof.
  apply (proj1 (C3_blank_text_rejected (fun s => s) env_full w0
                  ltac:(discriminate))).
  reflexivity.
Defined.

(** The claim C2 as it stands fails twice: an empty list sent while the
    primary model is not loaded is answered 503, not 400; and a batch of
    100 whitespace-only texts handled while the wall clock is set back
    reports a negative total_processing_time. *)
Lemma C2_counterexample :
  (analyze_batch_sentiment (fun s => s) env_unloaded (BatchTextInput.make []) w0
     = (Raise (mkHTTPException 503 (lit "Sentiment model not loaded")), w0) /\
   ~ (exists d w',
        analyze_batch_sentiment (fun s => s) env_unloaded
          (BatchTextInput.make []) w0
        = (Raise (mkHTTPException 400 d), w'))) /\
  (List.length (repeat (lit "  ") 100) = 100%nat /\
   exists w',
     analyze_batch_sentiment (fun s => s) env_full
       (BatchTextInput.make (repeat (lit "  ") 100)) w_set_back
     = (Return (BatchSentimentResult.make [] (-2000)%Z), w') /\
     (-2000 < 0)%Z).
Proof.
  split; split.
  - reflexivity.
  - intros (d & w' & H). discriminate H.
  - reflexivity.
  - eexists. split; [vm_compute; reflexivity | lia].
Qed.

Lemma C2_batch_size_validation_witness :
  exists br w',
    analyze_batch_sentiment (fun s => s) env_full
      (BatchTextInput.make (repeat (lit "  ") 100)) w0 = (Return br, w') /\
    BatchSentimentResult.results br = [] /\
    (0 <= BatchSentimentResult.total_processing_time br)%Z.
Proof.
  destruct (C2_batch_size_validation (fun s => s) env_full w0
              (BatchTextInput.make (repeat (lit "  ") 100))
              ltac:(discriminate)) as (_ & _ & H).
  destruct H as (_ & H);
    [cbn [BatchTextInput.texts]; rewrite repeat_length; lia|].
  destruct H as (br & Hrun & Hres & _ & Hsign).
  - apply Forall_forall. intros t Ht. apply repeat_spec in Ht. subst.
    reflexivity.
  - exists br. eexists. split; [exact Hrun|]. split; [exact Hres|].
    apply Hsign. vm_compute. discriminate.
Defined.

Lemma C8_top3_emotions_witness :
  exists sr w',
    analyze_single_text (fun s => s) env_full (lit "great news") w0
      = (Return sr, w') /\
    SentimentResult.emotions sr =
      Some [(lit "joy", 0.5%float); (lit "surprise", 0.25%float);
            (lit "neutral", 0.125%float)].
Proof.
  destruct (C8_top3_emotions (fun s => s) env_full (lit "great news") w0
              demo_sentiment (mkPrediction (lit "POSITIVE") 0.75%float) []
              demo_emotion
              [mkPrediction (lit "joy") 0.5%float;
               mkPrediction (lit "surprise") 0.25%float;
               mkPrediction (lit "neutral") 0.125%float;
               mkPrediction (lit "anger") 0.0625%float]
              eq_refl eq_refl eq_refl eq_refl)
    as (sr & w' & d & Hrun & Hemo & Hd & _).
  exists sr, w'. split; [exact Hrun|]. rewrite Hemo, Hd. reflexivity.
Defined.

(** The claim C6 as it stands fails on a secondary model that raises a
    [BaseException] outside [Exception]: when the emotion call ends in a
    SystemExit, the request does not succeed, the SystemExit goes up past
    both handlers. *)
Lemma C6_counterexample :
  demo_sentiment (lit "stop")
    = Return [mkPrediction (lit "LABEL_1") 0.25%float] /\
  exiting_emotion (lit "stop") = Uncaught (lit "SystemExit") /\
  fst (analyze_sentiment (fun s => s)
         (mkEnv (Some demo_sentiment) (Some exiting_emotion) false 0)
         (TextInput.make (lit "stop")) w0)
    = Uncaught (lit "SystemExit") /\
  ~ (exists sr w',
       analyze_sentiment (fun s => s)
         (mkEnv (Some demo_sentiment) (Some exiting_emotion) false 0)
         (TextInput.make (lit "stop")) w0 = (Return sr, w')).
Proof.
  split; [reflexivity|]. split; [reflexivity|]. split; [reflexivity|].
  intros (sr & w' & H). vm_compute in H. discriminate H.
Qed.

Lemma C6_emotions_best_effort_witness :
  (exists sr w',
     analyze_single_text (fun s => s) env_full (lit "bad day") w0
       = (Return sr, w') /\
     SentimentResult.emotions sr = None) /\
  (exists h w',
     health_check env_no_emotion w0 = (Return h, w') /\
     Health.emotion_loaded h = false).
Proof.
  split.
  - apply (proj1 (C6_emotions_best_effort (fun s => s) env_full)
             (lit "bad day") w0 demo_sentiment
             (mkPrediction (lit "Negative") 0.5%float) [] eq_refl eq_refl).
    right. exists demo_emotion, (lit "tokenizer error").
    split; reflexivity.
  - apply (proj2 (proj2 (proj2 (C6_emotions_best_effort (fun s => s)
                                  env_no_emotion)))
             eq_refl).
Defined.

Lemma C4_batch_results_in_order_witness :
  exists br w',
    analyze_batch_sentiment (fun s => s) env_full
      (BatchTextInput.make [lit "bad day"; lit ""; lit "great news"]) w0
      = (Return br, w') /\
    map SentimentResult.text (BatchSentimentResult.results br)
      = [lit "bad day"; lit "great news"].
Proof.
  destruct (C4_batch_results_in_order (fun s => s) env_full demo_sentiment w0
              (BatchTextInput.make [lit "bad day"; lit ""; lit "great news"])
              eq_refl ltac:(simpl; lia))
    as (_ & Hres & Hret).
  destruct Hret as [(br & w' & Hrun)|(t & q & b0 & w' & Hin & _ & Hq & Hb & _)].
  - intros t [<-|[<-|[<-|[]]]] Hb; try discriminate Hb;
      eexists; eexists; reflexivity.
  - exists br, w'. split; [exact Hrun|].
    destruct (Hres br w' Hrun) as (Htexts & _). rewrite Htexts. reflexivity.
  - assert (Hq' : q = demo_emotion) by (inversion Hq; reflexivity).
    subst q. destruct Hin as [<-|[<-|[<-|[]]]]; discriminate Hb.
Defined.

(** The claim C5 as it stands fails on a primary classifier that raises a
    [BaseException] outside [Exception]: when the classification of the
    second text ends in a SystemExit, the batch does not fail with a 500,
    the SystemExit goes up past the handler. *)
Lemma C5_counterexample :
  exiting_sentiment (lit "stop") = Uncaught (lit "SystemExit") /\
  fst (analyze_batch_sentiment (fun s => s)
         (mkEnv (Some exiting_sentiment) (Some demo_emotion) false 0)
         (BatchTextInput.make [lit "great news"; lit "stop"]) w0)
    = Uncaught (lit "SystemExit") /\
  ~ (exists e w',
       analyze_batch_sentiment (fun s => s)
         (mkEnv (Some exiting_sentiment) (Some demo_emotion) false 0)
         (BatchTextInput.make [lit "great news"; lit "stop"]) w0
       = (Raise e, w')).
Proof.
  split; [reflexivity|]. split; [reflexivity|].
  intros (e & w' & H). vm_compute in H. discriminate H.
Qed.

Lemma C5_batch_aborts_on_failure_witness :
  exists w',
    analyze_batch_sentiment (fun s => s) env_full
      (BatchTextInput.make [lit "bad day"; lit "boom"; lit "great news"]) w0
    = (Raise (mkHTTPException 500
                (lit "Analysis failed: " ++ lit "CUDA out of memory")), w').
Proof.
  apply (proj2 (C5_batch_aborts_on_failure (fun s => s) env_full
                  demo_sentiment w0
                  (BatchTextInput.make
                     [lit "bad day"; lit "boom"; lit "great news"])
                  (lit "boom") (lit "CUDA out of memory")
                  eq_refl ltac:(simpl; lia)
                  (or_intror (or_introl eq_refl)) eq_refl eq_refl)
           [lit "bad day"] [lit "great news"] eq_refl).
  intros x [<-|[]]. right. eexists. reflexivity.
Defined.

Lemma C10_text_verbatim_witness :
  exists sr w',
    analyze_sentiment (fun s => s) env_full
      (TextInput.make (lit "  great news ")) w0 = (Return sr, w') /\
    SentimentResult.text sr = lit "  great news ".
Proof.
  destruct (analyze_sentiment (fun s => s) env_full
              (TextInput.make (lit "  great news ")) w0)
    as [[sr|e|b0] w'] eqn:H.
  - exists sr, w'. split; [reflexivity|].
    apply (proj1 (C10_text_verbatim (fun s => s) env_full)
             (TextInput.make (lit "  great news ")) w0 sr w' H).
  - vm_compute in H. discriminate H.
  - vm_compute in H. discriminate H.
Defined.

(** ** Concrete runs of the further properties *)

Lemma load_models_outcome_witness :
  exists env' w',
    load_models (mkHub (Return demo_sentiment) (Raise (lit "no network")))
      env_unloaded w0 = (Return env', w') /\
    emotion_pipeline env' = None.
Proof.
  destruct (proj1 (proj2 (proj2 (load_models_outcome
                                   (mkHub (Return demo_sentiment)
                                      (Raise (lit "no network")))
                                   env_unloaded w0)))
              demo_sentiment (lit "no network") eq_refl eq_refl)
    as (w' & Hrun & _).
  eexists; exists w'. split; [exact Hrun | reflexivity].
Defined.

Lemma started_service_available_witness :
  Root.sentiment (root env_full) = true.
Proof.
  apply (proj1 (proj2 (proj2
           (started_service_available (fun s => s)
              (mkHub (Return demo_sentiment) (Return demo_emotion))
              env_unloaded w0 env_full
              (snd (load_models
                      (mkHub (Return demo_sentiment) (Return demo_emotion))
                      env_unloaded w0))
              eq_refl)))).
Defined.

Lemma started_without_emotion_witness :
  exists h w2,
    health_check env_no_emotion w0 = (Return h, w2) /\
    Health.emotion_loaded h = false /\
    Health.sentiment_loaded h = true.
Proof.
  apply (proj2 (proj2
           (started_without_emotion (fun s => s)
              (mkHub (Return demo_sentiment) (Raise (lit "no network")))
              env_unloaded w0 env_no_emotion
              (snd (load_models
                      (mkHub (Return demo_sentiment)
                         (Raise (lit "no network")))
                      env_unloaded w0))
              (lit "no network") eq_refl eq_refl)) w0).
Defined.

Lemma w0_monotone : monotone (clock w0).
Proof. intros n. cbn [clock w0]. lia. Defined.

Lemma batch_processing_times_witness :
  exists br w',
    analyze_batch_sentiment (fun s => s) env_full
      (BatchTextInput.make [lit "bad day"; lit ""; lit "great news"]) w0
      = (Return br, w') /\
    Forall (fun sr =>
              (0 <= SentimentResult.processing_time sr
               <= BatchSentimentResult.total_processing_time br)%Z)
           (BatchSentimentResult.results br).
Proof.
  destruct (analyze_batch_sentiment (fun s => s) env_full
              (BatchTextInput.make [lit "bad day"; lit ""; lit "great news"])
              w0) as [[br|e|b0] w'] eqn:H.
  - exists br, w'. split; [reflexivity|].
    apply (proj2 (proj2 (batch_processing_times (fun s => s) env_full _ w0
                           br w' H)) w0_monotone).
  - vm_compute in H. discriminate H.
  - vm_compute in H. discriminate H.
Defined.

Lemma refused_requests_leave_no_trace_witness :
  exists e,
    analyze_sentiment (fun s => s) env_full (TextInput.make (lit " ")) w0
      = (Raise e, w0) /\
    (status_code e = 500%Z \/
     (w0 = w0 /\ (status_code e = 400%Z \/ status_code e = 503%Z))).
Proof.
  eexists. split; [reflexivity|].
  apply (proj1 (refused_requests_leave_no_trace (fun s => s) env_full)
           (TextInput.make (lit " ")) w0 _ w0 eq_refl).
Defined.

Lemma server_errors_are_logged_witness :
  exists cause evs,
    trace (snd (analyze_sentiment (fun s => s) env_full
                  (TextInput.make (lit "boom")) w0))
    = trace w0 ++ evs ++ [LogError (lit "Error analyzing text: " ++ cause)].
Proof.
  destruct (proj1 (server_errors_are_logged (fun s => s) env_full)
              (TextInput.make (lit "boom")) w0
              (mkHTTPException 500 (lit "Analysis failed: CUDA out of memory"))
              (snd (analyze_sentiment (fun s => s) env_full
                      (TextInput.make (lit "boom")) w0))
              eq_refl eq_refl)
    as (cause & evs & _ & Htr).
  exists cause, evs. exact Htr.
Defined.

Lemma only_first_prediction_counts_witness :
  analyze_single_text (fun s => s)
    (mkEnv (Some demo_sentiment) None false 0) (lit "great news") w0 =
  analyze_single_text (fun s => s)
    (mkEnv (Some (fun _ => Return [mkPrediction (lit "POSITIVE") 0.75%float;
                                   mkPrediction (lit "NEGATIVE") 0.25%float]))
       None false 0)
    (lit "great news") w0.
Proof.
  apply (only_first_prediction_counts (fun s => s) demo_sentiment
           (fun _ => Return [mkPrediction (lit "POSITIVE") 0.75%float;
                             mkPrediction (lit "NEGATIVE") 0.25%float])
           None false 0%Z (lit "great news") w0
           (mkPrediction (lit "POSITIVE") 0.75%float) []
           [mkPrediction (lit "NEGATIVE") 0.25%float] eq_refl eq_refl).
Defined.

Lemma empty_output_is_500_witness :
  fst (analyze_single_text (fun s => s)
         (mkEnv (Some (fun _ => Return [])) (Some demo_emotion) false 0)
         (lit "great news") w0)
  = Raise (mkHTTPException 500
             (lit "Analysis failed: list index out of range")).
Proof.
  rewrite (empty_output_is_500 (fun s => s)
             (mkEnv (Some (fun _ => Return [])) (Some demo_emotion) false 0)
             (fun _ => Return []) (lit "great news") w0 eq_refl eq_refl).
  reflexivity.
Defined.

Lemma batch_of_one_matches_single_witness :
  match fst (analyze_sentiment (fun s => s) env_full
               (TextInput.make (lit "great news")) w0),
        fst (analyze_batch_sentiment (fun s => s) env_full
               (BatchTextInput.make [lit "great news"]) w_set_back) with
  | Return sr, Return br =>
      exists sr', BatchSentimentResult.results br = [sr'] /\
                  content sr' = content sr
  | Raise e, Raise e' => e = e'
  | _, _ => False
  end.
Proof.
  apply (batch_of_one_matches_single (fun s => s) env_full
           (lit "great news") w0 w_set_back).
  - discriminate.
  - reflexivity.
Defined.

Lemma emotions_at_most_three_witness :
  exists sr w' d,
    analyze_single_text (fun s => s) env_full (lit "great news") w0
      = (Return sr, w') /\
    SentimentResult.emotions sr = Some d /\
    (List.length d <= 3)%nat /\ NoDup (dict_keys d).
Proof.
  destruct (analyze_single_text (fun s => s) env_full (lit "great news") w0)
    as [[sr|e|b0] w'] eqn:H.
  - destruct (SentimentResult.emotions sr) as [d|] eqn:Hd.
    + exists sr, w', d. split; [reflexivity|]. split; [exact Hd|].
      destruct (emotions_at_most_three (fun s => s) env_full
                  (lit "great news") w0 sr w' d H Hd) as (Hlen & Hnd & _).
      split; [exact Hlen | exact Hnd].
    + vm_compute in H. inversion H; subst. discriminate Hd.
  - vm_compute in H. discriminate H.
  - vm_compute in H. discriminate H.
Defined.

Lemma failing_emotion_like_absent_witness :
  fst (analyze_single_text (fun s => s) env_full (lit "bad day") w0) =
  fst (analyze_single_text (fun s => s) env_no_emotion (lit "bad day") w0).
Proof.
  apply (proj1 (failing_emotion_like_absent (fun s => s)
                  (Some demo_sentiment) demo_emotion false 0%Z
                  (lit "bad day") w0 (lit "tokenizer error") eq_refl)).
Defined.

Lemma results_are_three_way_witness :
  exists sr w',
    analyze_sentiment (fun s => s) env_full
      (TextInput.make (lit "bad day")) w0 = (Return sr, w') /\
    ((SentimentResult.sentiment sr = lit "positive" /\
      SentimentResult.score sr = SentimentResult.confidence sr) \/
     (SentimentResult.sentiment sr = lit "negative" /\
      SentimentResult.score sr =
        PrimFloat.opp (SentimentResult.confidence sr)) \/
     (SentimentResult.sentiment sr = lit "neutral" /\
      SentimentResult.score sr = 0%float)).
Proof.
  destruct (analyze_sentiment (fun s => s) env_full
              (TextInput.make (lit "bad day")) w0) as [[sr|e|b0] w'] eqn:H.
  - exists sr, w'. split; [reflexivity|].
    apply (proj1 (results_are_three_way (fun s => s) env_full)
             (TextInput.make (lit "bad day")) w0 sr w' H).
  - vm_compute in H. discriminate H.
  - vm_compute in H. discriminate H.
Defined.

Lemma score_between_minus_one_and_one_witness :
  exists sr w',
    analyze_single_text (fun s => s) env_full (lit "bad day") w0
      = (Return sr, w') /\
    (-1 <=? SentimentResult.score sr)%float = true /\
    (SentimentResult.score sr <=? 1)%float = true.
Proof.
  destruct (analyze_single_text (fun s => s) env_full (lit "bad day") w0)
    as [[sr|e|b0] w'] eqn:H.
  - exists sr, w'. split; [reflexivity|].
    apply (score_between_minus_one_and_one (fun s => s) env_full
             (lit "bad day") w0 sr w' H);
      vm_compute in H; inversion H; reflexivity.
  - vm_compute in H. discriminate H.
  - vm_compute in H. discriminate H.
Defined.

Lemma single_request_clock_witness :
  exists sr w',
    analyze_sentiment (fun s => s) env_full
      (TextInput.make (lit "great news")) w0 = (Return sr, w') /\
    (0 <= SentimentResult.processing_time sr)%Z.
Proof.
  destruct (analyze_sentiment (fun s => s) env_full
              (TextInput.make (lit "great news")) w0)
    as [[sr|e|b0] w'] eqn:H.
  - exists sr, w'. split; [reflexivity|].
    apply (proj1 (single_request_clock (fun s => s) env_full
                    (TextInput.make (lit "great news")) w0) sr w' H).
    exact w0_monotone.
  - vm_compute in H. discriminate H.
  - vm_compute in H. discriminate H.
Defined.

Lemma health_check_agrees_with_root_witness :
  exists h,
    health_check env_full w0 =
      (Return h, mkWorld (clock w0) (S (reads w0)) (trace w0)) /\
    Health.device_count h = 0%Z /\
    Root.device (root env_full) = lit "cpu".
Proof.
  destruct (health_check_agrees_with_root env_full w0)
    as (h & Hrun & _ & _ & _ & _ & Hcpu).
  exists h. split; [exact Hrun|]. apply Hcpu.
  unfold health_check, bind, now, ret in Hrun. cbn in Hrun.
  inversion Hrun. reflexivity.
Defined.
